(** * Slash storefront: cart context and provider-application service

    A shallow embedding of the cart context ([CartProvider]: addToCart,
    removeFromCart, updateQuantity, clearCart, checkout, the derived
    itemCount and totalPrice) and of the provider-application service
    ([submitProviderApplication]), together with the properties the
    specification states about them.

    Conventions of the embedding.
    - A JavaScript [number] holding a price or a quantity is an integer [Z].
    - A [Date] is represented by its ISO-8601 rendering, which is never the
      empty string; [toISOString] returns it.
    - React state ([items], [experienceCache], [totalPrice]), the guest cart
      kept in [localStorage], the toasts shown so far and the remote tables
      are fields of one explicit world; every operation is a function from
      worlds to a completion (returned value or thrown value) and a world.
    - The remote data service is not part of the repository.  Each request
      consumes one entry of a fault plan carried by the world: the request is
      either accepted (and then acts on the tables), answered with an error
      object, or its promise rejects.
    - The stored guest cart is kept parsed; a call in which [JSON.parse],
      [toISOString] or [setItem] would throw is outside the model.
    - The cart operations are run one after another, each awaited before the
      next starts.  The effect that fills the experience cache is the
      exception: its function is applied to the render it closed over and to
      the state at the time it writes, so that overlapping runs can be
      played.
    - [console.error] is not user visible and is not recorded. *)

From Stdlib Require Import ZArith Lia Ascii.
From stdpp Require Import base option list gmap strings.

Local Open Scope Z_scope.

(** ** Values that flow through responses, [throw] and [catch] *)

Record PostgrestError := { code : string; message : string }.

Inductive Thrown :=
| JsError (msg : string)
| ServiceError (e : PostgrestError).

Inductive Outcome :=
| Accept
| Reject (e : PostgrestError)
| Throw (t : Thrown).

Record Response (T : Type) := { data : option T; error : option PostgrestError }.
Arguments data {T} _.
Arguments error {T} _.

Definition answer {T} (x : T) : Response T := {| data := Some x; error := None |}.
Definition no_content {T} : Response T := {| data := None; error := None |}.
Definition refuse {T} (e : PostgrestError) : Response T := {| data := None; error := Some e |}.

(** [.single()]: exactly one row, otherwise the PGRST116 error. *)
Definition PGRST116 : PostgrestError :=
  {| code := "PGRST116"; message := "JSON object requested, multiple (or no) rows returned" |}.

Definition single {T} (rows : list T) : Response T :=
  match rows with
  | [row] => answer row
  | _ => refuse PGRST116
  end.

(** ** A state monad with exceptions *)

Inductive Completion (A : Type) :=
| Return (a : A)
| Raise (t : Thrown).
Arguments Return {A} _.
Arguments Raise {A} _.

Definition M (W A : Type) : Type := W -> Completion A * W.

Definition ret {W A} (a : A) : M W A := fun w => (Return a, w).

Definition throw {W A} (t : Thrown) : M W A := fun w => (Raise t, w).

Definition bind {W A B} (m : M W A) (k : A -> M W B) : M W B :=
  fun w =>
    match m w with
    | (Return a, w') => k a w'
    | (Raise t, w') => (Raise t, w')
    end.

Definition try_catch {W A} (body : M W A) (handler : Thrown -> M W A) : M W A :=
  fun w =>
    match body w with
    | (Return a, w') => (Return a, w')
    | (Raise t, w') => handler t w'
    end.

#[global] Instance M_ret {W} : MRet (M W) := fun A => @ret W A.
#[global] Instance M_bind {W} : MBind (M W) := fun A B k m => @bind W A B m k.

(** ** JavaScript truthiness, as far as the cart uses it *)

(** [a || b] on numbers: [0] is falsy. *)
Definition number_or (a b : Z) : Z := if Z.eqb a 0 then b else a.

(** [a || b] on optional strings: [undefined], [null] and [""] are falsy. *)
Definition string_or (a b : option string) : option string :=
  match a with
  | Some EmptyString => b
  | Some s => Some s
  | None => b
  end.

Record Date := { iso_head : Ascii.ascii; iso_tail : string }.

Definition toISOString (d : Date) : string := String (iso_head d) (iso_tail d).

(** Fault plans: a healthy service, and one that refuses its [k]-th request. *)
Definition no_faults : nat → Outcome := λ _, Accept.

Definition fail_at (k : nat) : nat → Outcome :=
  λ n, if decide (n = k) then Reject {| code := "500"; message := "unavailable" |} else Accept.

(** What [sonner] shows to the user. *)
Inductive Toast :=
| toast_error (msg : string)
| toast_success (msg : string).

Module CartContext.

(** ** Data *)

Record CartItem := { experienceId : string; quantity : Z; date : option string }.

Record Experience := {
  id : string;
  title : string;
  price : Z;
  location : string;
  duration : string;
  participants : string;
  imageUrl : string;
  trending : bool
}.

Record User := { user_id : string }.

(** Rows of the remote tables the cart context touches. *)
Record CartRow := {
  row_id : nat;
  row_user_id : string;
  row_experience_id : string;
  row_quantity : Z;
  row_date : option string;
  row_created_at : string;
  row_updated_at : string
}.

Record BookingRow := {
  booking_id : nat;
  booking_user_id : string;
  total_amount : Z;
  status : string;
  payment_method : string;
  notes : string
}.

Record BookingItemRow := {
  item_booking_id : nat;
  item_experience_id : string;
  item_quantity : Z;
  price_at_booking : Z
}.

Record Database := {
  experiences : list string;       (* the id column of [experiences] *)
  cart_items : list CartRow;
  bookings : list BookingRow;
  booking_items : list BookingItemRow;
  next_id : nat
}.

(** The requests the cart context sends to the data service. *)
Inductive Query :=
| SelectCartItems (uid : string)
| SelectExperience (eid : string)
| SelectCartItem (uid eid : string)
| UpdateCartItem (rid : nat) (q : Z) (dt : option string) (stamp : string)
| InsertCartItem (uid eid : string) (q : Z) (dt : option string) (stamp : string)
| DeleteCartItem (uid eid : string)
| UpdateCartQuantity (uid eid : string) (q : Z) (stamp : string)
| DeleteCart (uid : string)
| InsertBooking (uid : string) (total : Z)
| InsertBookingItems (rows : list BookingItemRow).

Record World := {
  user : option User;
  items : list CartItem;
  experienceCache : gmap string Experience;
  totalPrice : Z;
  localStorage : option (list CartItem);   (* the parsed 'cart' entry *)
  toasts : list Toast;
  db : Database;
  faults : nat -> Outcome;
  sent : list Query;
  now : string;
  getExperienceById : string -> option Experience
}.

Definition setItems (l : list CartItem) : M World unit := fun w =>
  (Return tt,
   {| user := user w; items := l; experienceCache := experienceCache w;
      totalPrice := totalPrice w; localStorage := localStorage w;
      toasts := toasts w; db := db w; faults := faults w; sent := sent w;
      now := now w; getExperienceById := getExperienceById w |}).

Definition setExperienceCache (c : gmap string Experience) : M World unit := fun w =>
  (Return tt,
   {| user := user w; items := items w; experienceCache := c;
      totalPrice := totalPrice w; localStorage := localStorage w;
      toasts := toasts w; db := db w; faults := faults w; sent := sent w;
      now := now w; getExperienceById := getExperienceById w |}).

Definition setTotalPrice (t : Z) : M World unit := fun w =>
  (Return tt,
   {| user := user w; items := items w; experienceCache := experienceCache w;
      totalPrice := t; localStorage := localStorage w;
      toasts := toasts w; db := db w; faults := faults w; sent := sent w;
      now := now w; getExperienceById := getExperienceById w |}).

Definition localStorage_setItem (l : list CartItem) : M World unit := fun w =>
  (Return tt,
   {| user := user w; items := items w; experienceCache := experienceCache w;
      totalPrice := totalPrice w; localStorage := Some l;
      toasts := toasts w; db := db w; faults := faults w; sent := sent w;
      now := now w; getExperienceById := getExperienceById w |}).

Definition toast (t : Toast) : M World unit := fun w =>
  (Return tt,
   {| user := user w; items := items w; experienceCache := experienceCache w;
      totalPrice := totalPrice w; localStorage := localStorage w;
      toasts := toasts w ++ [t]; db := db w; faults := faults w; sent := sent w;
      now := now w; getExperienceById := getExperienceById w |}).

(** One request to the data service: it is recorded in [sent] and consumes
    the next entry of the fault plan; only an accepted request reaches the
    tables. *)
Definition request {T} (q : Query) (act : Database -> Response T * Database)
  : M World (Response T) :=
  fun w =>
    let served d :=
      {| user := user w; items := items w; experienceCache := experienceCache w;
         totalPrice := totalPrice w; localStorage := localStorage w;
         toasts := toasts w; db := d; faults := faults w; sent := sent w ++ [q];
         now := now w; getExperienceById := getExperienceById w |} in
    match faults w (length (sent w)) with
    | Accept => let (r, d) := act (db w) in (Return r, served d)
    | Reject e => (Return (refuse e), served (db w))
    | Throw t => (Raise t, served (db w))
    end.

Definition get {A} (f : World -> A) : M World A := fun w => (Return (f w), w).

(** ** Derived values *)

(** [items.reduce((total, item) => total + item.quantity, 0)] *)
Definition itemCount (items : list CartItem) : Z :=
  fold_left (fun total item => total + quantity item) items 0.

(** [experience?.price || 0] *)
Definition price_or_0 (experience : option Experience) : Z :=
  match experience with
  | Some e => number_or (price e) 0
  | None => 0
  end.

(** [items.reduce((sum, item) => sum + (cache[item.experienceId]?.price || 0) * item.quantity, 0)] *)
Definition cartTotal (cache : gmap string Experience) (items : list CartItem) : Z :=
  fold_left
    (fun sum item => sum + price_or_0 (cache !! experienceId item) * quantity item)
    items 0.

(** ** Requests on the remote tables *)

(** [{ experienceId: item.experience_id, quantity: item.quantity, date: item.date }] *)
Definition toCartItem (item : CartRow) : CartItem :=
  {| experienceId := row_experience_id item; quantity := row_quantity item;
     date := row_date item |}.

(** What the update of an existing row writes. *)
Definition touch (rid : nat) (q : Z) (dt : option string) (stamp : string) (r : CartRow)
  : CartRow :=
  if decide (row_id r = rid)
  then {| row_id := row_id r; row_user_id := row_user_id r;
          row_experience_id := row_experience_id r; row_quantity := q;
          row_date := dt; row_created_at := row_created_at r;
          row_updated_at := stamp |}
  else r.

Definition with_cart_items (rows : list CartRow) (d : Database) : Database :=
  {| experiences := experiences d; cart_items := rows; bookings := bookings d;
     booking_items := booking_items d; next_id := next_id d |}.

(** [from('cart_items').select('*').eq('user_id', uid)] *)
Definition select_cart_items (uid : string) (d : Database)
  : Response (list CartRow) * Database :=
  (answer (filter (λ r, row_user_id r = uid) (cart_items d)), d).

(** [from('experiences').select('id').eq('id', eid).single()] *)
Definition select_experience (eid : string) (d : Database)
  : Response string * Database :=
  (single (filter (λ i, i = eid) (experiences d)), d).

(** [from('cart_items').select('*').eq('user_id', uid).eq('experience_id', eid).single()] *)
Definition select_cart_item (uid eid : string) (d : Database)
  : Response CartRow * Database :=
  (single (filter (λ r, row_user_id r = uid ∧ row_experience_id r = eid) (cart_items d)), d).

(** [from('cart_items').update({quantity, date, updated_at}).eq('id', rid)] *)
Definition update_cart_item (rid : nat) (q : Z) (dt : option string) (stamp : string)
    (d : Database) : Response unit * Database :=
  (no_content, with_cart_items (touch rid q dt stamp <$> cart_items d) d).

(** [from('cart_items').insert({user_id, experience_id, quantity: 1, date, ...})] *)
Definition insert_cart_item (uid eid : string) (q : Z) (dt : option string)
    (stamp : string) (d : Database) : Response unit * Database :=
  (no_content,
   {| experiences := experiences d;
      cart_items := cart_items d ++
        [{| row_id := next_id d; row_user_id := uid; row_experience_id := eid;
            row_quantity := q; row_date := dt; row_created_at := stamp;
            row_updated_at := stamp |}];
      bookings := bookings d; booking_items := booking_items d;
      next_id := S (next_id d) |}).

(** [from('cart_items').delete().eq('user_id', uid).eq('experience_id', eid)] *)
Definition delete_cart_item (uid eid : string) (d : Database)
  : Response unit * Database :=
  (no_content,
   with_cart_items
     (filter (λ r, ¬ (row_user_id r = uid ∧ row_experience_id r = eid)) (cart_items d)) d).

(** [from('cart_items').update({quantity, updated_at}).eq('user_id', uid).eq('experience_id', eid)] *)
Definition update_cart_quantity (uid eid : string) (q : Z) (stamp : string)
    (d : Database) : Response unit * Database :=
  (no_content,
   with_cart_items
     ((λ r, if decide (row_user_id r = uid ∧ row_experience_id r = eid)
            then {| row_id := row_id r; row_user_id := row_user_id r;
                    row_experience_id := row_experience_id r; row_quantity := q;
                    row_date := row_date r; row_created_at := row_created_at r;
                    row_updated_at := stamp |}
            else r) <$> cart_items d) d).

(** [from('cart_items').delete().eq('user_id', uid)] *)
Definition delete_cart (uid : string) (d : Database) : Response unit * Database :=
  (no_content, with_cart_items (filter (λ r, row_user_id r ≠ uid) (cart_items d)) d).

(** [from('bookings').insert({...}).select('id').single()]: the new row's id *)
Definition insert_booking (uid : string) (total : Z) (d : Database)
  : Response nat * Database :=
  (answer (next_id d),
   {| experiences := experiences d; cart_items := cart_items d;
      bookings := bookings d ++
        [{| booking_id := next_id d; booking_user_id := uid; total_amount := total;
            status := "confirmed"; payment_method := "credit_card";
            notes := "Processed via web checkout" |}];
      booking_items := booking_items d; next_id := S (next_id d) |}).

(** [from('booking_items').insert(bookingItems)] *)
Definition insert_booking_items (rows : list BookingItemRow) (d : Database)
  : Response unit * Database :=
  (no_content,
   {| experiences := experiences d; cart_items := cart_items d;
      bookings := bookings d; booking_items := booking_items d ++ rows;
      next_id := next_id d |}).

(** ** The operations of the cart context *)

Definition fetchCartItems : M World unit :=
  u ← get user;
  match u with
  | None => mret tt
  | Some usr =>
    try_catch
      (r ← request (SelectCartItems (user_id usr)) (select_cart_items (user_id usr));
       match error r with
       | Some e => throw (ServiceError e)
       | None =>
         match data r with
         | Some rows =>
           setItems (toCartItem <$> rows)
         | None => throw (JsError "TypeError")
         end
       end)
      (λ e, throw e)
  end.

(** The loop of the effect that runs whenever [items] changes: a copy of the
    cache is filled line by line. *)
Definition fill_cache (lookup : string → option Experience) (its : list CartItem)
    (cache : gmap string Experience) : gmap string Experience * bool :=
  fold_left
    (λ '(newCache, needsUpdate) item,
       match newCache !! experienceId item with
       | Some _ => (newCache, needsUpdate)
       | None =>
         match lookup (experienceId item) with
         | Some experience => (<[experienceId item := experience]> newCache, true)
         | None => (newCache, needsUpdate)
         end
       end)
    its (cache, false).

(** The effect is scheduled by a render and its async function closes over
    the [items] and the [experienceCache] of that render: it keeps reading
    them while it awaits, whatever becomes of the state meanwhile, and it is
    never cancelled. *)
Record Render := {
  rendered_items : list CartItem;
  rendered_cache : gmap string Experience
}.

Definition render (w : World) : Render :=
  {| rendered_items := items w; rendered_cache := experienceCache w |}.

(** The function awaits once for every line whose experience it has not in
    its copy of the cache.  With nothing to await it runs through within the
    effect, on the state it was rendered from; otherwise its writes land
    later. *)
Definition awaitsFetch (r : Render) : bool :=
  existsb (λ item, bool_decide (rendered_cache r !! experienceId item = None))
          (rendered_items r).

(** The function of the effect, for the render [r].  Both writes follow the
    last await: the world they are applied to is the state at that time, and
    the cache is written as a value, not as an update of the current one. *)
Definition fetchExperiencesForCart (r : Render) : M World unit :=
  lookup ← get getExperienceById;
  let '(newCache, needsUpdate) :=
    fill_cache lookup (rendered_items r) (rendered_cache r) in
  (if needsUpdate then setExperienceCache newCache else mret tt);;
  setTotalPrice (cartTotal newCache (rendered_items r)).

Definition bump (item : CartItem) : CartItem :=
  {| experienceId := experienceId item; quantity := quantity item + 1; date := date item |}.

(** The guest branch works on the parsed array: [find] yields a reference to
    the first line of that id, whose quantity is incremented in place;
    without such a line a new one is pushed. *)
Definition bumpOrPush (eid : string) (dt : option Date) (cartItems : list CartItem)
  : list CartItem :=
  match list_find (λ item, experienceId item = eid) cartItems with
  | Some (i, existingItem) => alter bump i cartItems
  | None =>
    cartItems ++ [{| experienceId := eid; quantity := 1; date := toISOString <$> dt |}]
  end.

Definition addToCart (eid : string) (dt : option Date) : M World unit :=
  u ← get user;
  match u with
  | None =>
    try_catch
      (cart ← get localStorage;
       let cartItems := default [] cart in
       let cartItems' := bumpOrPush eid dt cartItems in
       localStorage_setItem cartItems';;
       setItems cartItems')
      (λ _, throw (JsError "Failed to add to cart"))
  | Some usr =>
    try_catch
      (r ← request (SelectExperience eid) (select_experience eid);
       match error r, data r with
       | None, Some experience =>
         r2 ← request (SelectCartItem (user_id usr) eid) (select_cart_item (user_id usr) eid);
         stamp ← get now;
         match error r2 with
         | Some fetchError =>
           if negb (String.eqb (code fetchError) "PGRST116")
           then throw (JsError "Failed to check cart")
           else mret tt
         | None => mret tt
         end;;
         match data r2 with
         | Some existingItem =>
           let q := row_quantity existingItem + 1 in
           let d := string_or (toISOString <$> dt) (row_date existingItem) in
           r3 ← request (UpdateCartItem (row_id existingItem) q d stamp)
                        (update_cart_item (row_id existingItem) q d stamp);
           match error r3 with
           | Some updateError => throw (JsError "Failed to update cart")
           | None => mret tt
           end
         | None =>
           r3 ← request (InsertCartItem (user_id usr) eid 1 (toISOString <$> dt) stamp)
                        (insert_cart_item (user_id usr) eid 1 (toISOString <$> dt) stamp);
           match error r3 with
           | Some insertError => throw (JsError "Failed to add to cart")
           | None => mret tt
           end
         end;;
         fetchCartItems
       | _, _ => throw (JsError "Experience not found")
       end)
      (λ e, throw e)
  end.

Definition removeFromCart (eid : string) : M World unit :=
  try_catch
    (u ← get user;
     failed ←
       match u with
       | Some usr =>
         r ← request (DeleteCartItem (user_id usr) eid) (delete_cart_item (user_id usr) eid);
         match error r with
         | Some e => toast (toast_error "Failed to remove item from cart");; mret true
         | None => mret false
         end
       | None => mret false
       end;
     if failed : bool then mret tt
     else
       prevItems ← get items;
       setItems (filter (λ item, experienceId item ≠ eid) prevItems);;
       toast (toast_success "Item removed from cart"))
    (λ _, toast (toast_error "Failed to remove item from cart")).

(** [item.experienceId === experienceId ? { ...item, quantity } : item] *)
Definition setQuantity (eid : string) (q : Z) (item : CartItem) : CartItem :=
  if decide (experienceId item = eid)
  then {| experienceId := experienceId item; quantity := q; date := date item |}
  else item.

Definition updateQuantity (eid : string) (q : Z) : M World unit :=
  try_catch
    (if bool_decide (q <= 0) then removeFromCart eid
     else
       u ← get user;
       stamp ← get now;
       failed ←
         match u with
         | Some usr =>
           r ← request (UpdateCartQuantity (user_id usr) eid q stamp)
                        (update_cart_quantity (user_id usr) eid q stamp);
           match error r with
           | Some e => toast (toast_error "Failed to update quantity");; mret true
           | None => mret false
           end
         | None => mret false
         end;
       if failed : bool then mret tt
       else
         prevItems ← get items;
         setItems (setQuantity eid q <$> prevItems))
    (λ _, toast (toast_error "Failed to update quantity")).

Definition clearCart : M World unit :=
  try_catch
    (u ← get user;
     failed ←
       match u with
       | Some usr =>
         r ← request (DeleteCart (user_id usr)) (delete_cart (user_id usr));
         match error r with
         | Some e => toast (toast_error "Failed to clear cart");; mret true
         | None => mret false
         end
       | None => mret false
       end;
     if failed : bool then mret tt
     else setItems [];; toast (toast_success "Cart cleared"))
    (λ _, toast (toast_error "Failed to clear cart")).

(** The rows [checkout] sends to [booking_items]. *)
Definition bookingItems (bookingData : nat) (cache : gmap string Experience)
    (its : list CartItem) : list BookingItemRow :=
  (λ item, {| item_booking_id := bookingData;
              item_experience_id := experienceId item;
              item_quantity := quantity item;
              price_at_booking := price_or_0 (cache !! experienceId item) |}) <$> its.

Definition checkout : M World bool :=
  u ← get user;
  match u with
  | None => toast (toast_error "Please log in to checkout");; mret false
  | Some usr =>
    its ← get items;
    if bool_decide (length its = 0%nat)
    then toast (toast_error "Your cart is empty");; mret false
    else
      try_catch
        (cache ← get experienceCache;
         let total := cartTotal cache its in
         r ← request (InsertBooking (user_id usr) total) (insert_booking (user_id usr) total);
         match error r, data r with
         | None, Some bookingData =>
           let rows := bookingItems bookingData cache its in
           r2 ← request (InsertBookingItems rows) (insert_booking_items rows);
           match error r2 with
           | Some itemsError => mret false
           | None => clearCart;; mret true
           end
         | _, _ => mret false
         end)
        (λ _, mret false)
  end.

(** The fate of the [n]-th request counted from now. *)
Definition outcome (w : World) (n : nat) : Outcome := faults w (n + length (sent w)).

(** ** Concrete worlds used to run the operations *)

Definition shop_db : Database :=
  {| experiences := ["a"; "b"]; cart_items := []; bookings := []; booking_items := [];
     next_id := 1 |}.

Definition diving : Experience :=
  {| id := "a"; title := "Scuba diving"; price := 100; location := "Goa";
     duration := "2h"; participants := "2"; imageUrl := "a.png"; trending := true |}.

Definition line (eid : string) (q : Z) : CartItem :=
  {| experienceId := eid; quantity := q; date := None |}.

Definition session (u : option User) (its : list CartItem) (plan : nat → Outcome) : World :=
  {| user := u; items := its; experienceCache := {["a" := diving]}; totalPrice := 0;
     localStorage := None; toasts := []; db := shop_db; faults := plan; sent := [];
     now := "2024-03-19T00:00:00.000Z"; getExperienceById := λ _, None |}.

Definition alice : User := {| user_id := "alice" |}.

(** A guest looking at a cart whose experiences are not cached yet; the
    catalogue knows experience "a". *)
Definition browsing (its : list CartItem) : World :=
  {| user := None; items := its; experienceCache := ∅; totalPrice := 0;
     localStorage := Some its; toasts := []; db := shop_db; faults := no_faults;
     sent := []; now := "2024-03-19T00:00:00.000Z";
     getExperienceById := λ eid, if String.eqb eid "a" then Some diving else None |}.

Definition noon : Date := {| iso_head := "2"%char; iso_tail := "024-05-01T12:00:00.000Z" |}.
Definition dusk : Date := {| iso_head := "2"%char; iso_tail := "024-05-01T18:00:00.000Z" |}.

(** ** Sums, as the specification words them *)

Definition sumZ (l : list Z) : Z := foldr Z.add 0 l.

(** What one cart line contributes to the total: cached price times quantity,
    and nothing when the experience is not cached. *)
Definition lineTotal (cache : gmap string Experience) (item : CartItem) : Z :=
  match cache !! experienceId item with
  | Some experience => price experience * quantity item
  | None => 0
  end.



Definition bookingItemsTotal (rows : list BookingItemRow) : Z :=
  sumZ ((λ row, price_at_booking row * item_quantity row) <$> rows).
(** The data service answers with the code PGRST116 only through [single];
    no refused request carries it. *)
Definition refusalsAreNotPGRST116 (w : World) : Prop :=
  ∀ n e, faults w n = Reject e → code e ≠ "PGRST116".

(** ** The session around the operations *)

(** The effect that runs when [user] changes: an authenticated session reads
    its remote cart, a guest session reads the stored cart if there is one.
    The promise of [fetchCartItems] is not awaited; its rejection is the
    completion of the effect here. *)
Definition loadCart : M World unit :=
  u ← get user;
  match u with
  | Some _ => fetchCartItems
  | None =>
    cart ← get localStorage;
    match cart with
    | Some stored => setItems stored
    | None => mret tt
    end
  end.

(** A page load: the three [useState] cells start from their initial values,
    while the stored cart and the remote tables persist. *)
Definition mount (w : World) : World :=
  {| user := user w; items := []; experienceCache := ∅; totalPrice := 0;
     localStorage := localStorage w; toasts := toasts w; db := db w;
     faults := faults w; sent := sent w; now := now w;
     getExperienceById := getExperienceById w |}.

(** What a shopper can trigger on the cart context.  A script of actions is
    played with every operation awaited before the next one starts;
    operations that overlap are not played by [performAll]. *)
Inductive Action :=
| AddToCart (eid : string) (dt : option Date)
| RemoveFromCart (eid : string)
| UpdateQuantity (eid : string) (q : Z)
| ClearCart
| Checkout
| LoadCart
| Reload.

Definition perform (w : World) (a : Action) : World :=
  match a with
  | AddToCart eid dt => (addToCart eid dt w).2
  | RemoveFromCart eid => (removeFromCart eid w).2
  | UpdateQuantity eid q => (updateQuantity eid q w).2
  | ClearCart => (clearCart w).2
  | Checkout => (checkout w).2
  | LoadCart => (loadCart w).2
  | Reload => (loadCart (mount w)).2
  end.

Definition performAll (w : World) (script : list Action) : World :=
  fold_left perform script w.

(** Every quantity held anywhere (item list, stored guest cart, remote cart)
    is at least 1. *)
Definition quantitiesPositive (w : World) : Prop :=
  Forall (λ item, 1 ≤ quantity item) (items w) ∧
  Forall (λ item, 1 ≤ quantity item) (default [] (localStorage w)) ∧
  Forall (λ row, 1 ≤ row_quantity row) (cart_items (db w)).

(** The key of a remote cart row. *)
Definition rowKey (row : CartRow) : string * string :=
  (row_user_id row, row_experience_id row).

(** No cart holds two lines of one experience: neither the item list, nor the
    stored guest cart, nor the remote cart of any user. *)
Definition noDuplicateLines (w : World) : Prop :=
  NoDup (experienceId <$> items w) ∧
  NoDup (experienceId <$> default [] (localStorage w)) ∧
  NoDup (rowKey <$> cart_items (db w)).

End CartContext.

Module ProviderService.

Section Service.

(** [parseFloat] and the numbers it produces are left abstract. *)
Context {number : Type} (parseFloat : string → number).

(** ** Data *)

Record ExperienceDetails := {
  name : string;
  description : string;
  image : string;
  price : string;
  details_location : string;
  duration : string;
  participants : string;
  date : string;
  category : string
}.

Record FormData := {
  companyName : string;
  email : string;
  contactNo : string;
  location : string;
  experienceDetails : option ExperienceDetails
}.

Record ProviderRow := {
  id : nat;
  company_name : string;
  provider_email : string;
  contact_no : string;
  provider_location : string;
  provider_status : string;
  join_date : string;
  experiences_count : Z;
  rating : Z
}.

Record ExperienceRow := {
  provider_id : nat;
  title : string;
  experience_description : string;
  image_url : string;
  experience_price : number;
  experience_location : string;
  experience_duration : string;
  experience_participants : string;
  experience_date : string;
  experience_category : string;
  experience_status : string
}.

Inductive Query :=
| InsertProvider (row : ProviderRow)
| InsertExperience (row : ExperienceRow).

Record World := {
  providers : list ProviderRow;
  experiences : list ExperienceRow;
  next_id : nat;
  faults : nat → Outcome;
  sent : list Query;
  toasts : list Toast;
  now : string
}.

(** What the function resolves to: [{success: true, data}] or
    [{success: false, error}]. *)
Inductive Submission :=
| Succeeded (data : option ProviderRow)
| Failed (error : Thrown).

Definition toast (t : Toast) : M World unit := fun w =>
  (Return tt,
   {| providers := providers w; experiences := experiences w; next_id := next_id w;
      faults := faults w; sent := sent w; toasts := toasts w ++ [t]; now := now w |}).

Definition get {A} (f : World → A) : M World A := fun w => (Return (f w), w).

(** The row the first insert writes; the service assigns the id. *)
Definition providerRow (formData : FormData) (w : World) : ProviderRow :=
  {| id := next_id w;
     company_name := companyName formData;
     provider_email := email formData;
     contact_no := contactNo formData;
     provider_location := location formData;
     provider_status := "pending";
     join_date := now w;
     experiences_count := 0;
     rating := 0 |}.

Definition experienceRow (providerData : ProviderRow) (details : ExperienceDetails)
  : ExperienceRow :=
  {| provider_id := id providerData;
     title := name details;
     experience_description := description details;
     image_url := image details;
     experience_price := parseFloat (price details);
     experience_location := details_location details;
     experience_duration := duration details;
     experience_participants := participants details;
     experience_date := date details;
     experience_category := category details;
     experience_status := "pending" |}.

(** [from('providers').insert({...}).select().single()] *)
Definition insert_provider (row : ProviderRow) : M World (Response ProviderRow) := fun w =>
  match faults w (length (sent w)) with
  | Accept =>
    (Return (answer row),
     {| providers := providers w ++ [row]; experiences := experiences w;
        next_id := S (next_id w); faults := faults w;
        sent := sent w ++ [InsertProvider row]; toasts := toasts w; now := now w |})
  | Reject e =>
    (Return (refuse e),
     {| providers := providers w; experiences := experiences w; next_id := next_id w;
        faults := faults w; sent := sent w ++ [InsertProvider row];
        toasts := toasts w; now := now w |})
  | Throw t =>
    (Raise t,
     {| providers := providers w; experiences := experiences w; next_id := next_id w;
        faults := faults w; sent := sent w ++ [InsertProvider row];
        toasts := toasts w; now := now w |})
  end.

(** [from('experiences').insert({...})] *)
Definition insert_experience (row : ExperienceRow) : M World (Response unit) := fun w =>
  match faults w (length (sent w)) with
  | Accept =>
    (Return no_content,
     {| providers := providers w; experiences := experiences w ++ [row];
        next_id := next_id w; faults := faults w;
        sent := sent w ++ [InsertExperience row]; toasts := toasts w; now := now w |})
  | Reject e =>
    (Return (refuse e),
     {| providers := providers w; experiences := experiences w; next_id := next_id w;
        faults := faults w; sent := sent w ++ [InsertExperience row];
        toasts := toasts w; now := now w |})
  | Throw t =>
    (Raise t,
     {| providers := providers w; experiences := experiences w; next_id := next_id w;
        faults := faults w; sent := sent w ++ [InsertExperience row];
        toasts := toasts w; now := now w |})
  end.

Definition submitProviderApplication (formData : FormData) : M World Submission :=
  try_catch
    (row ← get (providerRow formData);
     r ← insert_provider row;
     match error r with
     | Some providerError => throw (ServiceError providerError)
     | None => mret tt
     end;;
     let providerData := data r in
     match experienceDetails formData with
     | Some details =>
       match providerData with
       | Some created =>
         r2 ← insert_experience (experienceRow created details);
         match error r2 with
         | Some experienceError => throw (ServiceError experienceError)
         | None => mret tt
         end
       | None => throw (JsError "TypeError")
       end
     | None => mret tt
     end;;
     mret (Succeeded providerData))
    (λ error,
       toast (toast_error "Failed to submit application. Please try again.");;
       mret (Failed error)).

Definition outcome (w : World) (n : nat) : Outcome := faults w (n + length (sent w)).

End Service.

(** A concrete application and service state. *)
Definition studio : ExperienceDetails :=
  {| name := "Pottery"; description := "Wheel throwing"; image := "p.png";
     price := "1200"; details_location := "Pune"; duration := "3h";
     participants := "4"; date := "2024-06-01"; category := "craft" |}.

Definition application : FormData :=
  {| companyName := "Clay Co"; email := "hi@clay.example"; contactNo := "100";
     location := "Pune"; experienceDetails := Some studio |}.

Definition desk (plan : nat → Outcome) : @World Z :=
  {| providers := []; experiences := []; next_id := 7; faults := plan; sent := [];
     toasts := []; now := "2024-03-19T00:00:00.000Z" |}.

End ProviderService.
(** * The other functions of the provider service

    [getProviders], [updateProviderStatus] and [getProviderDetails] work on
    the same two tables as [submitProviderApplication].  They show no toast.
    A provider is addressed by the key the service assigned to its row. *)

Module ProviderAdmin.

Section Admin.

Context {number : Type}.

(** The service sorts; how it compares two join dates is not in the source. *)
Context (byJoinDateDescending : list ProviderService.ProviderRow →
                                list ProviderService.ProviderRow).

Abbreviation ProviderRow := ProviderService.ProviderRow.
Abbreviation ExperienceRow := (@ProviderService.ExperienceRow number).

Inductive Request :=
| SelectProviders
| UpdateStatus (providerId : nat) (status : string)
| SelectProvider (providerId : nat).

Record Tables := {
  providers : list ProviderRow;
  experiences : list ExperienceRow;
  faults : nat → Outcome;
  sent : list Request
}.

(** [{success: true, data}], [{success: true}] or [{success: false, error}] *)
Inductive Result (T : Type) :=
| Succeeded (data : T)
| Failed (error : Thrown).
Arguments Succeeded {T} _.
Arguments Failed {T} _.

Definition request {T} (q : Request) (act : Tables → Response T * list ProviderRow)
  : M Tables (Response T) :=
  fun w =>
    let served ps :=
      {| providers := ps; experiences := experiences w; faults := faults w;
         sent := sent w ++ [q] |} in
    match faults w (length (sent w)) with
    | Accept => let (r, ps) := act w in (Return r, served ps)
    | Reject e => (Return (refuse e), served (providers w))
    | Throw t => (Raise t, served (providers w))
    end.

(** [{ status }] written over a row *)
Definition withStatus (status : string) (row : ProviderRow) : ProviderRow :=
  {| ProviderService.id := ProviderService.id row;
     ProviderService.company_name := ProviderService.company_name row;
     ProviderService.provider_email := ProviderService.provider_email row;
     ProviderService.contact_no := ProviderService.contact_no row;
     ProviderService.provider_location := ProviderService.provider_location row;
     ProviderService.provider_status := status;
     ProviderService.join_date := ProviderService.join_date row;
     ProviderService.experiences_count := ProviderService.experiences_count row;
     ProviderService.rating := ProviderService.rating row |}.

(** [from('providers').select('*').order('join_date', { ascending: false })] *)
Definition select_providers (w : Tables)
  : Response (list ProviderRow) * list ProviderRow :=
  (answer (byJoinDateDescending (providers w)), providers w).

(** [from('providers').update({ status }).eq('id', providerId)] *)
Definition update_status (providerId : nat) (status : string) (w : Tables)
  : Response unit * list ProviderRow :=
  (no_content,
   (λ row, if decide (ProviderService.id row = providerId)
           then withStatus status row else row) <$> providers w).

(** [from('providers').select(...).eq('id', providerId).single()], selecting
    every column and the embedded experiences: the provider row with the
    experience rows that reference it. *)
Definition select_provider (providerId : nat) (w : Tables)
  : Response (ProviderRow * list ExperienceRow) * list ProviderRow :=
  (single
     ((λ row, (row, filter (λ e, ProviderService.provider_id e = ProviderService.id row)
                           (experiences w)))
        <$> filter (λ row, ProviderService.id row = providerId) (providers w)),
   providers w).

Definition getProviders : M Tables (Result (option (list ProviderRow))) :=
  try_catch
    (r ← request SelectProviders select_providers;
     match error r with
     | Some e => throw (ServiceError e)
     | None => mret (Succeeded (data r))
     end)
    (λ error, mret (Failed error)).

Definition updateProviderStatus (providerId : nat) (status : string)
  : M Tables (Result unit) :=
  try_catch
    (r ← request (UpdateStatus providerId status) (update_status providerId status);
     match error r with
     | Some e => throw (ServiceError e)
     | None => mret (Succeeded tt)
     end)
    (λ error, mret (Failed error)).

Definition getProviderDetails (providerId : nat)
  : M Tables (Result (option (ProviderRow * list ExperienceRow))) :=
  try_catch
    (r ← request (SelectProvider providerId) (select_provider providerId);
     match error r with
     | Some e => throw (ServiceError e)
     | None => mret (Succeeded (data r))
     end)
    (λ error, mret (Failed error)).

Definition outcome (w : Tables) (n : nat) : Outcome := faults w (n + length (sent w)).

(** The tables an application leaves behind, as the other functions see them. *)
Definition tablesOf (w : @ProviderService.World number) (plan : nat → Outcome) : Tables :=
  {| providers := ProviderService.providers w;
     experiences := ProviderService.experiences w;
     faults := plan; sent := [] |}.

End Admin.

Arguments Succeeded {T} _.
Arguments Failed {T} _.

End ProviderAdmin.
(** * The experience card: wishlist state *)

Module ExperienceCard.

Record WishlistRow := {
  wishlist_id : nat;
  wishlist_user_id : string;
  wishlist_experience_id : string
}.

Inductive Request :=
| SelectWishlist (uid eid : string).

(** One mounted card: the [experience.id] it renders, its [isInWishlist]
    cell, and the session and service around it. *)
Record Card := {
  user : option CartContext.User;
  experience_id : string;
  isInWishlist : bool;
  wishlists : list WishlistRow;
  faults : nat → Outcome;
  sent : list Request;
  toasts : list Toast
}.

Definition setIsInWishlist (b : bool) : M Card unit := fun c =>
  (Return tt,
   {| user := user c; experience_id := experience_id c; isInWishlist := b;
      wishlists := wishlists c; faults := faults c; sent := sent c;
      toasts := toasts c |}).

Definition toast (t : Toast) : M Card unit := fun c =>
  (Return tt,
   {| user := user c; experience_id := experience_id c;
      isInWishlist := isInWishlist c; wishlists := wishlists c;
      faults := faults c; sent := sent c; toasts := toasts c ++ [t] |}).

Definition get {A} (f : Card → A) : M Card A := fun c => (Return (f c), c).

(** [from('wishlists').select('id').eq('user_id', uid).eq('experience_id', eid).single()] *)
Definition select_wishlist (uid eid : string) : M Card (Response nat) := fun c =>
  let served :=
    {| user := user c; experience_id := experience_id c;
       isInWishlist := isInWishlist c; wishlists := wishlists c;
       faults := faults c; sent := sent c ++ [SelectWishlist uid eid];
       toasts := toasts c |} in
  match faults c (length (sent c)) with
  | Accept =>
    (Return (single (wishlist_id <$>
               filter (λ r, wishlist_user_id r = uid ∧ wishlist_experience_id r = eid)
                      (wishlists c))),
     served)
  | Reject e => (Return (refuse e), served)
  | Throw t => (Raise t, served)
  end.

(** The effect that runs on mount and when the user or the experience
    changes.  The error of the response is not looked at: [!!data]. *)
Definition checkWishlist : M Card unit :=
  u ← get user;
  match u with
  | None => setIsInWishlist false
  | Some usr =>
    try_catch
      (eid ← get experience_id;
       r ← select_wishlist (CartContext.user_id usr) eid;
       setIsInWishlist (bool_decide (is_Some (data r))))
      (λ _, mret tt)
  end.

Section Toggle.

(** The hook [useExperienceInteractions] is not in the source: its
    [toggleWishlist] receives the experience id, the current flag and the
    callback to run on success (the map of experiences it also receives is
    left out). *)
Context (toggleWishlist : string → bool → M Card unit → M Card unit).

Definition handleToggleWishlist : M Card unit :=
  u ← get user;
  match u with
  | None => toast (toast_error "Please log in to save to your wishlist")
  | Some _ =>
    eid ← get experience_id;
    current ← get isInWishlist;
    toggleWishlist eid current (setIsInWishlist (negb current))
  end.

End Toggle.

Definition outcome (c : Card) (n : nat) : Outcome := faults c (n + length (sent c)).

Definition card (u : option CartContext.User) (rows : list WishlistRow)
    (plan : nat → Outcome) : Card :=
  {| user := u; experience_id := "a"; isInWishlist := false; wishlists := rows;
     faults := plan; sent := []; toasts := [] |}.

End ExperienceCard.

(** * The migration that adds [date] to [cart_items] *)

Module Migration.

Inductive Column := Absent | Nullable | NotNull.

(** The table: its rows, a missing date being NULL, and the state of the
    [date] column. *)
Record Table := { rows : list CartContext.CartRow; date_column : Column }.

Definition withDate (dt : option string) (r : CartContext.CartRow) : CartContext.CartRow :=
  {| CartContext.row_id := CartContext.row_id r;
     CartContext.row_user_id := CartContext.row_user_id r;
     CartContext.row_experience_id := CartContext.row_experience_id r;
     CartContext.row_quantity := CartContext.row_quantity r;
     CartContext.row_date := dt;
     CartContext.row_created_at := CartContext.row_created_at r;
     CartContext.row_updated_at := CartContext.row_updated_at r |}.

(** [ALTER TABLE cart_items ADD COLUMN date TIMESTAMP WITH TIME ZONE]: fails
    when the column exists; existing rows get NULL. *)
Definition add_column (t : Table) : option Table :=
  match date_column t with
  | Absent => Some {| rows := withDate None <$> rows t; date_column := Nullable |}
  | _ => None
  end.

(** [UPDATE cart_items SET date = NOW() WHERE date IS NULL] *)
Definition backfill (now : string) (t : Table) : option Table :=
  match date_column t with
  | Absent => None
  | col =>
    Some {| rows := (λ r, match CartContext.row_date r with
                          | None => withDate (Some now) r
                          | Some _ => r
                          end) <$> rows t;
            date_column := col |}
  end.

(** [ALTER TABLE cart_items ALTER COLUMN date SET NOT NULL]: fails when a row
    holds NULL. *)
Definition set_not_null (t : Table) : option Table :=
  match date_column t with
  | Absent => None
  | _ =>
    if forallb (λ r, bool_decide (is_Some (CartContext.row_date r))) (rows t)
    then Some {| rows := rows t; date_column := NotNull |}
    else None
  end.

Definition migrate (now : string) (t : Table) : option Table :=
  t1 ← add_column t; t2 ← backfill now t1; set_not_null t2.

(** An insert into the table: a NOT NULL column refuses a row without a date
    (the migration declares no default), and a table without the column
    refuses a row with one. *)
Definition insert (r : CartContext.CartRow) (t : Table) : option Table :=
  match date_column t, CartContext.row_date r with
  | NotNull, None => None
  | Absent, Some _ => None
  | _, _ => Some {| rows := rows t ++ [r]; date_column := date_column t |}
  end.

(** A table from before the migration, with one row. *)
Definition legacy : Table :=
  {| rows := [{| CartContext.row_id := 1; CartContext.row_user_id := "alice";
                 CartContext.row_experience_id := "a"; CartContext.row_quantity := 2;
                 CartContext.row_date := None;
                 CartContext.row_created_at := "2024-03-01T00:00:00.000Z";
                 CartContext.row_updated_at := "2024-03-01T00:00:00.000Z" |}];
     date_column := Absent |}.

End Migration.

(** * Properties of the cart context *)

Module CartFacts.
Import CartContext.

Section Reduce.

Context {A : Type} (f : A → Z).

Lemma reduce_from (l : list A) (a : Z) :
  fold_left (λ acc x, acc + f x) l a = a + sumZ (f <$> l).
Proof.
  revert a. induction l as [|x l IH]; intros a.
  - unfold sumZ; simpl; lia.
  - rewrite fmap_cons. cbn [fold_left]. rewrite IH.
    unfold sumZ. cbn [foldr]. lia.
Qed.

Lemma reduce_sum (l : list A) :
  fold_left (λ acc x, acc + f x) l 0 = sumZ (f <$> l).
Proof. rewrite reduce_from. lia. Qed.

End Reduce.

Lemma number_or_0 (p : Z) : number_or p 0 = p.
Proof. unfold number_or. destruct (Z.eqb_spec p 0); congruence. Qed.

Lemma price_or_0_lineTotal cache item :
  price_or_0 (cache !! experienceId item) * quantity item = lineTotal cache item.
Proof.
  unfold lineTotal, price_or_0.
  destruct (cache !! experienceId item); [by rewrite number_or_0 | done].
Qed.

Lemma cartTotal_sum cache its :
  cartTotal cache its = sumZ (lineTotal cache <$> its).
Proof.
  unfold cartTotal.
  rewrite (reduce_sum (λ item, price_or_0 (cache !! experienceId item) * quantity item)).
  f_equal. apply list_fmap_ext. intros _ item _. apply price_or_0_lineTotal.
Qed.

Lemma bookingItems_total bookingData cache its :
  bookingItemsTotal (bookingItems bookingData cache its) = cartTotal cache its.
Proof.
  unfold bookingItemsTotal, bookingItems, cartTotal.
  rewrite (reduce_sum (λ item, price_or_0 (cache !! experienceId item) * quantity item)).
  by rewrite <- list_fmap_compose.
Qed.


(** C9: for every cart item list, the derived itemCount is the sum of the
    quantities of all cart lines; it is not the number of lines. *)
Theorem itemCount_is_sum_of_quantities :
  (∀ its : list CartItem, itemCount its = sumZ (quantity <$> its)) ∧
  (∃ its : list CartItem, itemCount its ≠ Z.of_nat (length its)).
Proof.
  split.
  - intros its. unfold itemCount. apply (reduce_sum quantity).
  - exists [{| experienceId := "a"; quantity := 3; date := None |}]. by compute.
Qed.

(** C4, at the failing input: the function of the effect is never cancelled
    and writes what it computed from its own render.  A line is removed
    while the run for the list that had it awaits its fetch: the run for the
    empty list has nothing to await and writes 0, then the older run writes
    100, and the empty cart shows a totalPrice of 100.  Likewise, when the
    quantity is raised to 3 meanwhile and the newer run writes first, the
    cart of 3 shows 100 where the sum over its lines is 300. *)
Theorem totalPrice_stale_after_overlapping_runs :
  let w0 := browsing [line "a" 1] in
  let first := render w0 in
  let w1 := (removeFromCart "a" w0).2 in
  let w2 := (fetchExperiencesForCart (render w1) w1).2 in
  let w3 := (fetchExperiencesForCart first w2).2 in
  let v1 := (updateQuantity "a" 3 w0).2 in
  let v2 := (fetchExperiencesForCart (render v1) v1).2 in
  let v3 := (fetchExperiencesForCart first v2).2 in
  (awaitsFetch first = true ∧ awaitsFetch (render w1) = false ∧
   awaitsFetch (render v1) = true) ∧
  (items w3 = [] ∧ totalPrice w2 = 0 ∧ totalPrice w3 = 100 ∧
   sumZ (lineTotal (experienceCache w3) <$> items w3) = 0) ∧
  (items v3 = [line "a" 3] ∧ totalPrice v2 = 300 ∧ totalPrice v3 = 100 ∧
   sumZ (lineTotal (experienceCache v3) <$> items v3) = 300).
Proof. repeat split. Qed.

(** ** Checkout *)

Arguments cartTotal : simpl never.
Arguments bookingItems : simpl never.

Ltac js :=
  unfold mbind, M_bind, bind, mret, M_ret, ret, throw, try_catch, get, toast,
    setItems, localStorage_setItem, request.

Ltac norm := cbn; rewrite ?length_app, ?Nat.add_1_r; cbn.

Ltac on_outcome E :=
  norm;
  match goal with
  | |- context [match ?f ?n with Accept => _ | Reject _ => _ | Throw _ => _ end] =>
    destruct (f n) eqn:E
  end; norm.

Ltac open_world w :=
  destruct w as [u its cache tp ls ts d f s n g];
  unfold outcome in *; cbn [faults sent user items db toasts localStorage plus] in *.

(** C5: checkout with an empty cart returns false, sends no request at all
    (so no booking and no booking-items insert), and leaves the remote
    tables, the item list and the guest cart as they were. *)
Theorem checkout_empty_cart (w : World) :
  length (items w) = 0%nat →
  ∃ w', checkout w = (Return false, w') ∧
    sent w' = sent w ∧ db w' = db w ∧
    items w' = items w ∧ localStorage w' = localStorage w.
Proof.
  open_world w. intros H. destruct its; [|done].
  unfold checkout. js. destruct u; norm; eexists; (split; [reflexivity|]); done.
Qed.

Lemma checkout_empty_cart_witness :
  ∃ w', checkout (session (Some alice) [] no_faults) = (Return false, w') ∧
    sent w' = [] ∧ db w' = shop_db ∧ items w' = [] ∧ localStorage w' = None.
Proof. apply (checkout_empty_cart (session (Some alice) [] no_faults)). reflexivity. Defined.

(** C1 as stated fails: with both inserts accepted and the request of
    clearCart refused, checkout returns true although the cart keeps its
    lines. *)
Lemma checkout_true_cart_not_cleared :
  let w := session (Some alice) [line "a" 2] (fail_at 2) in
  outcome w 0 = Accept ∧ outcome w 1 = Accept ∧
  (checkout w).1 = Return true ∧
  items (checkout w).2 = [line "a" 2].
Proof. repeat split. Qed.

(** C1, amended: checkout always returns a boolean.  When it returns false
    the item list is unchanged.  It returns true exactly when a user is
    logged in, the cart is not empty and both inserts were accepted; it has
    then sent the request of clearCart after the two inserts, and the item
    list is empty if that request was accepted and unchanged otherwise. *)
Theorem checkout_clears_after_both_inserts (w : World) :
  ∃ b w', checkout w = (Return b, w') ∧
    (b = false → items w' = items w) ∧
    (b = true ↔
       is_Some (user w) ∧ items w ≠ [] ∧ outcome w 0 = Accept ∧ outcome w 1 = Accept) ∧
    (b = true →
       (∃ uid total rows,
          sent w' = sent w ++ [InsertBooking uid total; InsertBookingItems rows; DeleteCart uid]) ∧
       (outcome w 2 = Accept → items w' = []) ∧
       (outcome w 2 ≠ Accept → items w' = items w)).
Proof.
  open_world w. unfold checkout, clearCart. js.
  destruct u as [usr|]; [destruct its as [|it its]|]; norm.
  - do 2 eexists. split; [reflexivity|]. repeat split; try done. by intros (_&?&_).
  - rewrite bool_decide_eq_false_2 by done.
    on_outcome E1; [on_outcome E2; [on_outcome E3|..]|..].
    all: do 2 eexists; (split; [reflexivity|]); cbn.
    all: rewrite <- ?app_assoc; cbn.
    all: repeat split; try done; eauto.
    all: try (intros; intuition congruence).
  - do 2 eexists; (split; [reflexivity|]); cbn; repeat split; try done.
    by intros ([? [=]]&?).
Qed.

Lemma checkout_clears_after_both_inserts_witness :
  ∃ w', checkout (session (Some alice) [line "a" 2] no_faults) = (Return true, w') ∧
        items w' = [].
Proof.
  destruct (checkout_clears_after_both_inserts (session (Some alice) [line "a" 2] no_faults))
    as (b & w' & E & _ & Ht & Hc).
  assert (Hb : b = true).
  { apply Ht. split; [by eexists|]. split; [discriminate|]. split; reflexivity. }
  subst b. exists w'. split; [exact E|].
  apply Hc; reflexivity.
Defined.

(** C2: for every checkout that reaches the insert phase, the rows handed to
    the booking_items insert carry prices and quantities whose products sum to
    the total_amount handed to the bookings insert, both read off the same
    cache snapshot with an uncached experience priced 0; when both inserts
    are accepted, the stored booking row and the stored item rows agree in
    the same way. *)
Theorem checkout_items_sum_to_total_amount (w : World) (usr : User) :
  user w = Some usr → items w ≠ [] →
  let w' := (checkout w).2 in
  let total := sumZ (lineTotal (experienceCache w) <$> items w) in
  (∃ new, sent w' = sent w ++ new ∧
     ∀ rows, InsertBookingItems rows ∈ new →
       InsertBooking (user_id usr) total ∈ new ∧ bookingItemsTotal rows = total) ∧
  (outcome w 0 = Accept → outcome w 1 = Accept →
   ∃ booking rows,
     bookings (db w') = bookings (db w) ++ [booking] ∧
     booking_items (db w') = booking_items (db w) ++ rows ∧
     Forall (λ row, item_booking_id row = booking_id booking) rows ∧
     length rows = length (items w) ∧
     total_amount booking = total ∧
     bookingItemsTotal rows = total_amount booking).
Proof.
  open_world w. intros -> Hne. destruct its as [|it its]; [done|clear Hne].
  rewrite <- cartTotal_sum.
  unfold checkout, clearCart. js. norm.
  rewrite bool_decide_eq_false_2 by done.
  on_outcome E1; [on_outcome E2; [on_outcome E3|..]|..].
  all: split; [eexists; split; [rewrite <- ?app_assoc; cbn; reflexivity|] | try done].
  all: try (intros rows Hin; set_unfold; destruct_or?; simplify_eq; try done;
            split; first [by left | apply bookingItems_total]).
  all: intros _ _; do 2 eexists; repeat split; try reflexivity.
  all: try (apply Forall_fmap, Forall_true; done).
  all: try (unfold bookingItems; by rewrite length_fmap).
  all: apply bookingItems_total.
Qed.

Lemma checkout_items_sum_to_total_amount_witness :
  let w := session (Some alice) [line "a" 2; line "b" 1] no_faults in
  (∃ new, sent (checkout w).2 = sent w ++ new ∧
     ∀ rows, InsertBookingItems rows ∈ new →
       InsertBooking "alice" 200 ∈ new ∧ bookingItemsTotal rows = 200) ∧
  (outcome w 0 = Accept → outcome w 1 = Accept →
   ∃ booking rows,
     bookings (db (checkout w).2) = [booking] ∧
     booking_items (db (checkout w).2) = rows ∧
     Forall (λ row, item_booking_id row = booking_id booking) rows ∧
     length rows = 2%nat ∧
     total_amount booking = 200 ∧
     bookingItemsTotal rows = total_amount booking).
Proof.
  apply (checkout_items_sum_to_total_amount
           (session (Some alice) [line "a" 2; line "b" 1] no_faults) alice).
  - reflexivity.
  - discriminate.
Defined.

(** ** Toasts *)

(** C8 as stated fails: an unauthenticated checkout returns false and shows
    a toast, and a failing addToCart shows none. *)
Lemma checkout_failure_shows_toast :
  let w := session None [line "a" 1] no_faults in
  let v := session (Some alice) [] (fail_at 0) in
  (checkout w).1 = Return false ∧
  toasts (checkout w).2 = [toast_error "Please log in to checkout"] ∧
  (addToCart "a" None v).1 = Raise (JsError "Experience not found") ∧
  toasts (addToCart "a" None v).2 = [].
Proof. repeat split. Qed.

Lemma addToCart_no_toast (eid : string) (dt : option Date) (w : World) :
  toasts (addToCart eid dt w).2 = toasts w.
Proof.
  open_world w. unfold addToCart, fetchCartItems. js.
  destruct u as [usr|]; norm; [|done].
  on_outcome E1; try done.
  destruct (filter _ (experiences d)) as [|? [|? ?]]; norm; try done.
  on_outcome E2; try done.
  - destruct (filter _ (cart_items d)) as [|? [|? ?]]; norm.
    all: on_outcome E3; try done.
    all: on_outcome E4; done.
  - destruct (String.eqb (code e) "PGRST116"); norm; [|done].
    on_outcome E3; try done.
    on_outcome E4; done.
Qed.

(** C8, amended: when checkout returns false it has shown exactly one error
    toast if nobody is logged in or the cart is empty, and no toast on the
    booking-insert, booking-items-insert and exception paths.  removeFromCart,
    updateQuantity and clearCart show exactly one error toast when their
    request is refused or throws; addToCart never shows a toast. *)
Theorem checkout_toasts_only_before_inserts (w : World) :
  (∀ w', checkout w = (Return false, w') →
     match user w, items w with
     | None, _ => toasts w' = toasts w ++ [toast_error "Please log in to checkout"]
     | Some _, [] => toasts w' = toasts w ++ [toast_error "Your cart is empty"]
     | Some _, _ :: _ => toasts w' = toasts w
     end) ∧
  (is_Some (user w) → outcome w 0 ≠ Accept →
     (∀ eid, toasts (removeFromCart eid w).2 =
             toasts w ++ [toast_error "Failed to remove item from cart"]) ∧
     (∀ eid q, 0 < q →
        toasts (updateQuantity eid q w).2 =
        toasts w ++ [toast_error "Failed to update quantity"]) ∧
     toasts (clearCart w).2 = toasts w ++ [toast_error "Failed to clear cart"]) ∧
  (∀ eid dt, toasts (addToCart eid dt w).2 = toasts w).
Proof.
  split; [|split; [|intros; apply addToCart_no_toast]].
  - open_world w. unfold checkout, clearCart. js.
    destruct u as [usr|]; [destruct its as [|it its]|]; norm.
    + by intros w' [= <-].
    + rewrite bool_decide_eq_false_2 by done.
      on_outcome E1; [on_outcome E2; [on_outcome E3|..]|..].
      all: by intros w' [= <-].
    + by intros w' [= <-].
  - open_world w. intros [usr ->] Hbad.
    unfold updateQuantity, removeFromCart, clearCart. js. norm.
    destruct (f (length s)) eqn:E; [done|..]; norm.
    all: repeat split; try done.
    all: intros eid q Hq; rewrite bool_decide_eq_false_2 by lia; norm.
    all: by rewrite E.
Qed.

Lemma checkout_toasts_only_before_inserts_witness :
  let w := session (Some alice) [line "a" 1] (fail_at 0) in
  toasts (removeFromCart "a" w).2 = [toast_error "Failed to remove item from cart"] ∧
  toasts (updateQuantity "a" 3 w).2 = [toast_error "Failed to update quantity"] ∧
  toasts (clearCart w).2 = [toast_error "Failed to clear cart"].
Proof.
  destruct (checkout_toasts_only_before_inserts
              (session (Some alice) [line "a" 1] (fail_at 0))) as (_ & H & _).
  destruct H as (Hr & Hu & Hc); [by eexists | discriminate |].
  split; [apply Hr | split; [apply Hu; lia | apply Hc]].
Defined.

(** ** Setting a quantity *)

(** C6: updateQuantity always completes.  Provided the one request an
    authenticated session sends is accepted (a guest sends none),
    updateQuantity(id, n) with n ≤ 0 removes every line of that id and stores
    no quantity at all, and with n ≥ 1 it sets the quantity of the line of
    that id to n, keeping the lines, their order and their dates; the rows of
    the remote cart follow.  When that request is refused or throws, the item
    list and the remote tables stay as they were. *)
Theorem updateQuantity_sets_or_removes (w : World) (eid : string) (q : Z) :
  let w' := (updateQuantity eid q w).2 in
  (updateQuantity eid q w).1 = Return tt ∧
  ((is_Some (user w) → outcome w 0 = Accept) →
   (q ≤ 0 →
      items w' = filter (λ item, experienceId item ≠ eid) (items w) ∧
      (∀ item, item ∈ items w' → experienceId item ≠ eid ∧ item ∈ items w) ∧
      (∀ usr row, user w = Some usr → row ∈ cart_items (db w') →
         ¬ (row_user_id row = user_id usr ∧ row_experience_id row = eid))) ∧
   (1 ≤ q →
      items w' = setQuantity eid q <$> items w ∧
      experienceId <$> items w' = experienceId <$> items w ∧
      date <$> items w' = date <$> items w ∧
      (∀ item, item ∈ items w' → experienceId item = eid → quantity item = q) ∧
      (∀ usr row, user w = Some usr → row ∈ cart_items (db w') →
         row_user_id row = user_id usr → row_experience_id row = eid →
         row_quantity row = q))) ∧
  (is_Some (user w) → outcome w 0 ≠ Accept → items w' = items w ∧ db w' = db w).
Proof.
  open_world w.
  unfold updateQuantity, removeFromCart. js.
  destruct (decide (q ≤ 0)) as [Hq|Hq].
  - rewrite bool_decide_eq_true_2 by done.
    destruct u as [usr|]; norm.
    + destruct (f (length s)) eqn:E; norm.
      all: split; [done|]; split; [|try done; by intros _ []].
      all: intros Hok; try (by discriminate Hok; eauto).
      split; [|lia]. intros _. split; [done|]. split.
      * intros item [? ?]%list_elem_of_filter. done.
      * intros usr' row [= <-] [? ?]%list_elem_of_filter. done.
    + split; [done|]. split; [|by intros [? [=]]].
      intros _. split; [|lia]. intros _. split; [done|]. split.
      * intros item [? ?]%list_elem_of_filter. done.
      * intros usr' row [=].
  - rewrite bool_decide_eq_false_2 by done.
    assert (G : ∀ l : list CartItem,
               experienceId <$> (setQuantity eid q <$> l) = experienceId <$> l ∧
               date <$> (setQuantity eid q <$> l) = date <$> l ∧
               ∀ item, item ∈ setQuantity eid q <$> l →
                       experienceId item = eid → quantity item = q).
    { intros l. rewrite <- !list_fmap_compose. repeat split.
      - apply list_fmap_ext. intros _ x _. unfold setQuantity. simpl. by case_decide.
      - apply list_fmap_ext. intros _ x _. unfold setQuantity. simpl. by case_decide.
      - intros item (x & -> & _)%list_elem_of_fmap. unfold setQuantity.
        case_decide; simpl; [done|]. done. }
    destruct (G its) as (G1 & G2 & G3).
    destruct u as [usr|]; norm.
    + destruct (f (length s)) eqn:E; norm.
      all: split; [done|]; split; [|try done; by intros _ []].
      all: intros Hok; try (by discriminate Hok; eauto).
      split; [lia|]. intros _. repeat split; try done.
      intros usr' row [= <-] (x & -> & _)%list_elem_of_fmap.
      case_decide; simpl; [done|]. intros; exfalso; auto.
    + split; [done|]. split; [|by intros [? [=]]].
      intros _. split; [lia|]. intros _. repeat split; try done.
Qed.

Lemma updateQuantity_sets_or_removes_witness :
  let w := session (Some alice) [line "a" 1; line "b" 4] no_faults in
  items (updateQuantity "a" 0 w).2 = [line "b" 4] ∧
  items (updateQuantity "a" (-3) w).2 = [line "b" 4] ∧
  items (updateQuantity "a" 7 w).2 = [line "a" 7; line "b" 4].
Proof.
  pose (w := session (Some alice) [line "a" 1; line "b" 4] no_faults).
  assert (Hok : is_Some (user w) → outcome w 0 = Accept) by reflexivity.
  split; [|split].
  - destruct (updateQuantity_sets_or_removes w "a" 0) as (_ & H & _).
    destruct (H Hok) as (H0 & _). destruct H0 as (H0 & _); [lia|]. exact H0.
  - destruct (updateQuantity_sets_or_removes w "a" (-3)) as (_ & H & _).
    destruct (H Hok) as (H0 & _). destruct H0 as (H0 & _); [lia|]. exact H0.
  - destruct (updateQuantity_sets_or_removes w "a" 7) as (_ & H & _).
    destruct (H Hok) as (_ & H0). destruct H0 as (H0 & _); [lia|]. exact H0.
Defined.

(** ** Adding to the cart *)

Lemma alter_bump_dates (i : nat) (l : list CartItem) :
  date <$> alter bump i l = date <$> l.
Proof.
  revert i. induction l as [|x l IH]; intros [|i]; simpl; try done.
  f_equal. apply IH.
Qed.

Lemma alter_bump_ids (i : nat) (l : list CartItem) :
  experienceId <$> alter bump i l = experienceId <$> l.
Proof.
  revert i. induction l as [|x l IH]; intros [|i]; simpl; try done.
  f_equal. apply IH.
Qed.

(** The guest branch never fails and leaves [localStorage] and [items] equal. *)
Lemma addToCart_guest (eid : string) (dt : option Date) (w : World) :
  user w = None →
  (addToCart eid dt w).1 = Return tt ∧
  localStorage (addToCart eid dt w).2 =
    Some (bumpOrPush eid dt (default [] (localStorage w))) ∧
  items (addToCart eid dt w).2 = bumpOrPush eid dt (default [] (localStorage w)).
Proof. open_world w. intros ->. unfold addToCart. js. by norm. Qed.

(** Starting from a guest cart without the id, two additions store one line
    of quantity 2 behind the lines that were there. *)
Lemma bumpOrPush_twice (eid : string) (dt dt' : option Date) (l : list CartItem) :
  Forall (λ item, experienceId item ≠ eid) l →
  bumpOrPush eid dt' (bumpOrPush eid dt l) =
  l ++ [{| experienceId := eid; quantity := 2; date := toISOString <$> dt |}].
Proof.
  intros Hl. unfold bumpOrPush at 2.
  destruct (list_find _ l) as [[i x]|] eqn:E.
  - apply list_find_Some in E as (Hi & Hx & _).
    apply list_elem_of_lookup_2 in Hi.
    rewrite Forall_forall in Hl. by apply Hl in Hi.
  - unfold bumpOrPush.
    set (new := {| experienceId := eid; quantity := 1; date := toISOString <$> dt |}).
    assert (Hf : list_find (λ item, experienceId item = eid) (l ++ [new])
                 = Some (length l, new)).
    { apply list_find_Some. split; [|split].
      - by rewrite lookup_app_r, Nat.sub_diag by lia.
      - done.
      - intros j y Hj Hlt. rewrite lookup_app_l in Hj by done.
        apply list_elem_of_lookup_2 in Hj.
        rewrite Forall_forall in Hl. by apply Hl. }
    rewrite Hf. rewrite alter_app_r_alt, Nat.sub_diag by lia. done.
Qed.

(** C3, at the failing input: in a guest session the quantity set by
    updateQuantity, and the removal done by removeFromCart, never reach
    [localStorage], from which addToCart rebuilds the item list.  After
    add, set to 5, add the line has quantity 2 and not 6; after add, remove,
    add, add it has quantity 3 and not 2. *)
Theorem addToCart_guest_forgets_updates :
  let w0 := session None [] no_faults in
  let w1 := (addToCart "a" None w0).2 in
  let w2 := (updateQuantity "a" 5 w1).2 in
  let w3 := (addToCart "a" None w2).2 in
  let v2 := (removeFromCart "a" w1).2 in
  let v3 := (addToCart "a" None v2).2 in
  let v4 := (addToCart "a" None v3).2 in
  items w1 = [line "a" 1] ∧ items w2 = [line "a" 5] ∧ items w3 = [line "a" 2] ∧
  items v2 = [] ∧ items v3 = [line "a" 2] ∧ items v4 = [line "a" 3].
Proof. repeat split. Qed.

(** C10: when the guest cart already holds a line of the id, addToCart leaves
    every stored date as it was, whatever date is supplied, and increments
    that line; in an authenticated session whose requests are accepted, the
    existing row receives the supplied date, or keeps its own when none is
    supplied, and the refreshed item list shows that date. *)
Theorem addToCart_date_of_existing_line (w : World) (eid : string) (dt : option Date) :
  let w' := (addToCart eid dt w).2 in
  (∀ l i existingItem,
     user w = None → localStorage w = Some l →
     list_find (λ item, experienceId item = eid) l = Some (i, existingItem) →
     ∃ l', localStorage w' = Some l' ∧ items w' = l' ∧
       date <$> l' = date <$> l ∧
       experienceId <$> l' = experienceId <$> l ∧
       l' !! i = Some {| experienceId := eid; quantity := quantity existingItem + 1;
                         date := date existingItem |}) ∧
  (∀ usr existingItem,
     user w = Some usr →
     filter (λ i, i = eid) (experiences (db w)) = [eid] →
     filter (λ r, row_user_id r = user_id usr ∧ row_experience_id r = eid)
            (cart_items (db w)) = [existingItem] →
     outcome w 0 = Accept → outcome w 1 = Accept →
     outcome w 2 = Accept → outcome w 3 = Accept →
     let newDate := match dt with
                    | Some d => Some (toISOString d)
                    | None => row_date existingItem
                    end in
     cart_items (db w') =
       touch (row_id existingItem) (row_quantity existingItem + 1) newDate (now w)
         <$> cart_items (db w) ∧
     items w' = toCartItem <$> filter (λ r, row_user_id r = user_id usr) (cart_items (db w')) ∧
     (∃ item, item ∈ items w' ∧ experienceId item = eid) ∧
     (∀ item, item ∈ items w' → experienceId item = eid →
        date item = newDate ∧ quantity item = row_quantity existingItem + 1)).
Proof.
  split.
  - intros l i x Hu Hl Hf.
    destruct (addToCart_guest eid dt w Hu) as (_ & -> & ->).
    rewrite Hl. simpl. unfold bumpOrPush. rewrite Hf.
    apply list_find_Some in Hf as (Hi & Hx & _).
    eexists. repeat split.
    + apply alter_bump_dates.
    + apply alter_bump_ids.
    + rewrite list_lookup_alter_eq, Hi. simpl. unfold bump. by rewrite Hx.
  - open_world w. cbn [now]. intros usr x -> He Hx E0 E1 E2 E3.
    unfold addToCart, fetchCartItems. js. norm.
    rewrite E0. norm. rewrite He. norm. rewrite E1. norm. rewrite Hx. norm.
    rewrite E2. norm. rewrite E3. norm.
    assert (Hd : string_or (toISOString <$> dt) (row_date x) =
                 match dt with Some d0 => Some (toISOString d0) | None => row_date x end).
    { by destruct dt. }
    rewrite Hd. clear Hd.
    set (newDate := match dt with Some d0 => Some (toISOString d0) | None => row_date x end).
    assert (Hin : x ∈ cart_items d ∧ row_user_id x = user_id usr ∧ row_experience_id x = eid).
    { assert (H : x ∈ [x]) by apply list_elem_of_here.
      rewrite <- Hx in H. apply list_elem_of_filter in H. tauto. }
    destruct Hin as (Hin & Hxu & Hxe).
    repeat split.
    + exists (toCartItem (touch (row_id x) (row_quantity x + 1) newDate n x)). split.
      * apply list_elem_of_fmap_2, list_elem_of_filter. split.
        -- unfold touch. by case_decide.
        -- by apply list_elem_of_fmap_2.
      * unfold touch. by case_decide.
    + apply list_elem_of_fmap in H as (r' & -> & [Hr' (r & -> & Hr)%list_elem_of_fmap]%list_elem_of_filter).
      assert (r = x) as ->.
      { assert (H : r ∈ [x]).
        { rewrite <- Hx. apply list_elem_of_filter. split; [|done].
          revert Hr' H0. unfold touch. by case_decide. }
        by apply list_elem_of_singleton in H. }
      unfold touch. by case_decide.
    + apply list_elem_of_fmap in H as (r' & -> & [Hr' (r & -> & Hr)%list_elem_of_fmap]%list_elem_of_filter).
      assert (r = x) as ->.
      { assert (H : r ∈ [x]).
        { rewrite <- Hx. apply list_elem_of_filter. split; [|done].
          revert Hr' H0. unfold touch. by case_decide. }
        by apply list_elem_of_singleton in H. }
      unfold touch. by case_decide.
Qed.

Lemma addToCart_date_of_existing_line_witness :
  let w := (addToCart "a" (Some noon) (session None [] no_faults)).2 in
  let v := (addToCart "a" (Some noon) (session (Some alice) [] no_faults)).2 in
  (∃ l', localStorage (addToCart "a" (Some dusk) w).2 = Some l' ∧
         items (addToCart "a" (Some dusk) w).2 = l' ∧
         date <$> l' = [Some (toISOString noon)]) ∧
  (∀ item, item ∈ items (addToCart "a" (Some dusk) v).2 → experienceId item = "a" →
     date item = Some (toISOString dusk) ∧ quantity item = 2).
Proof.
  pose (w := (addToCart "a" (Some noon) (session None [] no_faults)).2).
  pose (v := (addToCart "a" (Some noon) (session (Some alice) [] no_faults)).2).
  split.
  - destruct (addToCart_date_of_existing_line w "a" (Some dusk)) as [G _].
    destruct (G [{| experienceId := "a"; quantity := 1; date := Some (toISOString noon) |}]
                0%nat
                {| experienceId := "a"; quantity := 1; date := Some (toISOString noon) |})
      as (l' & H1 & H2 & H3 & _); [reflexivity..|].
    exists l'. split; [exact H1|]. split; [exact H2|exact H3].
  - destruct (addToCart_date_of_existing_line v "a" (Some dusk)) as [_ A].
    destruct (A alice
                {| row_id := 1; row_user_id := "alice"; row_experience_id := "a";
                   row_quantity := 1; row_date := Some (toISOString noon);
                   row_created_at := "2024-03-19T00:00:00.000Z";
                   row_updated_at := "2024-03-19T00:00:00.000Z" |})
      as (_ & _ & _ & H); [reflexivity..|].
    exact H.
Defined.
(** * Further properties of the cart context *)

Arguments bumpOrPush : simpl never.

Lemma sumZ_app (l1 l2 : list Z) : sumZ (l1 ++ l2) = sumZ l1 + sumZ l2.
Proof. unfold sumZ. induction l1 as [|x l1 IH]; simpl; lia. Qed.

Lemma itemCount_sum (its : list CartItem) : itemCount its = sumZ (quantity <$> its).
Proof. apply (reduce_sum quantity). Qed.

Lemma itemCount_app (l1 l2 : list CartItem) :
  itemCount (l1 ++ l2) = itemCount l1 + itemCount l2.
Proof. by rewrite !itemCount_sum, fmap_app, sumZ_app. Qed.

Lemma itemCount_cons (x : CartItem) (l : list CartItem) :
  itemCount (x :: l) = quantity x + itemCount l.
Proof. apply (itemCount_app [x] l). Qed.

Lemma itemCount_alter_bump (i : nat) (x : CartItem) (l : list CartItem) :
  l !! i = Some x → itemCount (alter bump i l) = itemCount l + 1.
Proof.
  revert i. induction l as [|y l IH]; intros [|i] H; try done.
  - change (alter bump 0%nat (y :: l)) with (bump y :: l).
    rewrite !itemCount_cons. simpl. lia.
  - change (alter bump (S i) (y :: l)) with (y :: alter bump i l).
    rewrite !itemCount_cons, (IH i) by done. lia.
Qed.

Lemma itemCount_bumpOrPush (eid : string) (dt : option Date) (l : list CartItem) :
  itemCount (bumpOrPush eid dt l) = itemCount l + 1.
Proof.
  unfold bumpOrPush. destruct (list_find _ l) as [[i x]|] eqn:E.
  - apply list_find_Some in E as (Hi & _). by apply itemCount_alter_bump with x.
  - by rewrite itemCount_app.
Qed.

(** X1: in a guest session, an addToCart that completes has sent no request
    and shown no toast; afterwards the stored cart is exactly the item list,
    and it counts one item more than the stored cart did before, whether the
    line was new or already there.  (A call that throws, on a stored cart
    that does not parse or on an invalid date, is not covered.) *)
Theorem addToCart_guest_adds_one_item (w : World) (eid : string) (dt : option Date) :
  user w = None →
  (addToCart eid dt w).1 = Return tt →
  let w' := (addToCart eid dt w).2 in
  localStorage w' = Some (items w') ∧
  itemCount (items w') = itemCount (default [] (localStorage w)) + 1 ∧
  sent w' = sent w ∧ db w' = db w ∧ toasts w' = toasts w ∧ user w' = None.
Proof.
  open_world w. intros -> _. unfold addToCart. js. norm.
  repeat split. apply itemCount_bumpOrPush.
Qed.

Lemma addToCart_guest_adds_one_item_witness :
  let w := session None [] no_faults in
  let w' := (addToCart "a" None w).2 in
  localStorage w' = Some (items w') ∧ itemCount (items w') = 1.
Proof.
  destruct (addToCart_guest_adds_one_item (session None [] no_faults) "a" None)
    as (H1 & H2 & _); [reflexivity | reflexivity |].
  split; [exact H1 | exact H2].
Defined.

(** X2: starting from a guest cart that has no line of the id, two calls of
    addToCart leave the former lines in place, followed by a single line of
    that id with quantity 2 and the date of the first call. *)
Theorem addToCart_guest_twice (w : World) (eid : string) (dt dt' : option Date) :
  user w = None →
  Forall (λ item, experienceId item ≠ eid) (default [] (localStorage w)) →
  items (addToCart eid dt' (addToCart eid dt w).2).2 =
    default [] (localStorage w) ++
    [{| experienceId := eid; quantity := 2; date := toISOString <$> dt |}].
Proof.
  open_world w. intros -> Hl. unfold addToCart. js. norm.
  by apply bumpOrPush_twice.
Qed.

Lemma addToCart_guest_twice_witness :
  items (addToCart "b" (Some dusk) (addToCart "b" (Some noon) (session None [] no_faults)).2).2 =
    [{| experienceId := "b"; quantity := 2; date := Some (toISOString noon) |}].
Proof.
  apply (addToCart_guest_twice (session None [] no_faults) "b" (Some noon) (Some dusk)).
  - reflexivity.
  - constructor.
Defined.
Lemma filter_absent (eid : string) (l : list string) :
  eid ∉ l → filter (λ i, i = eid) l = [].
Proof.
  induction l as [|x l IH]; [done|]. intros H.
  apply not_elem_of_cons in H as [Hx Hl].
  rewrite filter_cons_False by congruence. by apply IH.
Qed.

(** X3: in an authenticated session, addToCart for an id that the experiences
    table does not hold fails with 'Experience not found' after a single
    lookup: nothing is written to the remote cart, and the item list, the
    stored cart and the toasts are untouched. *)
Theorem addToCart_unknown_experience (w : World) (usr : User) (eid : string)
    (dt : option Date) :
  user w = Some usr → eid ∉ experiences (db w) → (∀ t, outcome w 0 ≠ Throw t) →
  let w' := (addToCart eid dt w).2 in
  (addToCart eid dt w).1 = Raise (JsError "Experience not found") ∧
  sent w' = sent w ++ [SelectExperience eid] ∧
  db w' = db w ∧ items w' = items w ∧
  localStorage w' = localStorage w ∧ toasts w' = toasts w.
Proof.
  open_world w. intros -> Habs Hnt. unfold addToCart. js. norm.
  destruct (f (length s)) eqn:E; norm.
  - rewrite filter_absent by done. by norm.
  - done.
  - by destruct (Hnt t).
Qed.

Lemma addToCart_unknown_experience_witness :
  let w := session (Some alice) [] no_faults in
  (addToCart "zz" None w).1 = Raise (JsError "Experience not found") ∧
  sent (addToCart "zz" None w).2 = [SelectExperience "zz"] ∧
  db (addToCart "zz" None w).2 = shop_db.
Proof.
  destruct (addToCart_unknown_experience (session (Some alice) [] no_faults) alice "zz" None)
    as (H1 & H2 & H3 & _).
  - reflexivity.
  - cbn. rewrite !elem_of_cons, elem_of_nil. intros [H|[H|[]]]; discriminate H.
  - intros t. discriminate.
  - split; [exact H1|]. split; [exact H2 | exact H3].
Defined.

(** X4: in an authenticated session whose requests are accepted, addToCart
    for a known experience without a row in the user's remote cart appends
    one row of quantity 1 carrying the supplied date (none when no date is
    supplied), leaves every other row as it was, and refreshes the item list
    from the user's rows. *)
Theorem addToCart_first_line (w : World) (usr : User) (eid : string) (dt : option Date) :
  user w = Some usr →
  filter (λ i, i = eid) (experiences (db w)) = [eid] →
  filter (λ r, row_user_id r = user_id usr ∧ row_experience_id r = eid)
         (cart_items (db w)) = [] →
  outcome w 0 = Accept → outcome w 1 = Accept →
  outcome w 2 = Accept → outcome w 3 = Accept →
  let w' := (addToCart eid dt w).2 in
  let row := {| row_id := next_id (db w); row_user_id := user_id usr;
                row_experience_id := eid; row_quantity := 1;
                row_date := toISOString <$> dt; row_created_at := now w;
                row_updated_at := now w |} in
  (addToCart eid dt w).1 = Return tt ∧
  cart_items (db w') = cart_items (db w) ++ [row] ∧
  items w' = toCartItem <$> filter (λ r, row_user_id r = user_id usr) (cart_items (db w')) ∧
  toCartItem row ∈ items w' ∧
  sent w' = sent w ++
    [SelectExperience eid; SelectCartItem (user_id usr) eid;
     InsertCartItem (user_id usr) eid 1 (toISOString <$> dt) (now w);
     SelectCartItems (user_id usr)].
Proof.
  open_world w. cbn [now]. intros -> He Hx E0 E1 E2 E3.
  unfold addToCart, fetchCartItems. js. norm.
  rewrite E0. norm. rewrite He. norm. rewrite E1. norm. rewrite Hx. norm.
  rewrite E2. norm. rewrite E3. norm.
  rewrite <- !app_assoc. repeat split.
  apply list_elem_of_fmap_2. rewrite filter_app. apply elem_of_app. right.
  rewrite filter_cons_True by done. apply list_elem_of_here.
Qed.

Lemma addToCart_first_line_witness :
  let w := session (Some alice) [] no_faults in
  (addToCart "a" (Some noon) w).1 = Return tt ∧
  items (addToCart "a" (Some noon) w).2 =
    [{| experienceId := "a"; quantity := 1; date := Some (toISOString noon) |}].
Proof.
  destruct (addToCart_first_line (session (Some alice) [] no_faults) alice "a" (Some noon))
    as (H1 & _ & H3 & _); [reflexivity..|].
  split; [exact H1 | exact H3].
Defined.

(** X5: addToCart changes the item list and the stored guest cart only when
    it completes: whenever it throws (unknown experience, a refused or
    rejected request, a failed refresh after the remote write) both are
    exactly what they were. *)
Theorem addToCart_throws_keeps_items (w : World) (eid : string) (dt : option Date)
    (t : Thrown) :
  (addToCart eid dt w).1 = Raise t →
  items (addToCart eid dt w).2 = items w ∧
  localStorage (addToCart eid dt w).2 = localStorage w.
Proof.
  open_world w. unfold addToCart, fetchCartItems. js.
  destruct u as [usr|]; norm; [|done].
  on_outcome E1; try done.
  destruct (filter _ (experiences d)) as [|? [|? ?]]; norm; try done.
  on_outcome E2; try done.
  - destruct (filter _ (cart_items d)) as [|? [|? ?]]; norm.
    all: on_outcome E3; try done.
    all: on_outcome E4; done.
  - destruct (String.eqb (code e) "PGRST116"); norm; [|done].
    on_outcome E3; try done.
    on_outcome E4; done.
Qed.

Lemma addToCart_throws_keeps_items_witness :
  let w := session (Some alice) [line "b" 1] (fail_at 3) in
  items (addToCart "a" None w).2 = [line "b" 1] ∧
  length (cart_items (db (addToCart "a" None w).2)) = 1%nat.
Proof.
  split; [|reflexivity].
  apply (addToCart_throws_keeps_items (session (Some alice) [line "b" 1] (fail_at 3))
           "a" None (ServiceError {| code := "500"; message := "unavailable" |})).
  reflexivity.
Defined.
(** X6: the effect that follows a change of user.  For a guest it sends
    nothing and shows the stored cart, or keeps the item list it had when
    nothing is stored.  For an authenticated user it sends one select and
    writes nothing, neither to the remote tables nor to the stored guest
    cart; when the select is accepted the item list becomes that user's
    remote rows, in table order, and no row of another user shows up; when it
    fails the effect throws and the item list stays. *)
Theorem loadCart_shows_own_cart (w : World) :
  let r := (loadCart w).1 in
  let w' := (loadCart w).2 in
  db w' = db w ∧ localStorage w' = localStorage w ∧ toasts w' = toasts w ∧
  match user w with
  | None =>
    r = Return tt ∧ sent w' = sent w ∧
    items w' = default (items w) (localStorage w)
  | Some usr =>
    sent w' = sent w ++ [SelectCartItems (user_id usr)] ∧
    match outcome w 0 with
    | Accept =>
      r = Return tt ∧
      items w' = toCartItem <$> filter (λ row, row_user_id row = user_id usr)
                                       (cart_items (db w)) ∧
      (∀ item, item ∈ items w' ↔
         ∃ row, row ∈ cart_items (db w) ∧ row_user_id row = user_id usr ∧
                item = toCartItem row)
    | Reject e => r = Raise (ServiceError e)
    | Throw t => r = Raise t
    end ∧
    (outcome w 0 ≠ Accept → items w' = items w)
  end.
Proof.
  open_world w. unfold loadCart, fetchCartItems. js.
  destruct u as [usr|]; norm.
  - destruct (f (length s)) eqn:E; norm; repeat split; try done.
    + intros (row & -> & [? ?]%list_elem_of_filter)%list_elem_of_fmap. eauto.
    + intros (row & ? & ? & ->). apply list_elem_of_fmap_2, list_elem_of_filter. done.
  - destruct ls; done.
Qed.

(** X7: in a guest session removeFromCart, updateQuantity and clearCart send
    no request and never write the stored cart; a page reload therefore
    shows the stored cart again, whatever had been removed or changed. *)
Theorem guest_edits_bypass_storage (w : World) (edit : Action) :
  user w = None →
  match edit with
  | RemoveFromCart _ | UpdateQuantity _ _ | ClearCart => True
  | _ => False
  end →
  let w' := perform w edit in
  localStorage w' = localStorage w ∧ sent w' = sent w ∧ db w' = db w ∧
  items (perform w' Reload) = default [] (localStorage w).
Proof.
  open_world w. intros -> Hedit.
  destruct edit as [| eid | eid q | | | |]; try done; cbn [perform].
  - unfold removeFromCart, loadCart, mount. js. norm. by destruct ls.
  - unfold updateQuantity, removeFromCart, loadCart, mount. js.
    destruct (bool_decide (q ≤ 0)); norm; by destruct ls.
  - unfold clearCart, loadCart, mount. js. norm. by destruct ls.
Qed.

Lemma guest_edits_bypass_storage_witness :
  let w := (addToCart "a" None (session None [] no_faults)).2 in
  items (perform w (RemoveFromCart "a")) = [] ∧
  items (perform (perform w (RemoveFromCart "a")) Reload) = [line "a" 1].
Proof.
  split; [reflexivity|].
  apply (guest_edits_bypass_storage
           (addToCart "a" None (session None [] no_faults)).2 (RemoveFromCart "a")).
  - reflexivity.
  - exact I.
Defined.

(** X8: a guest cart written by addToCart survives a page reload: the item
    list after the reload is the item list addToCart left. *)
Theorem guest_cart_survives_reload (w : World) (eid : string) (dt : option Date) :
  user w = None →
  let w' := (addToCart eid dt w).2 in
  items (perform w' Reload) = items w' ∧
  itemCount (items (perform w' Reload)) = itemCount (default [] (localStorage w)) + 1.
Proof.
  open_world w. intros ->. cbn [perform].
  unfold addToCart, loadCart, mount. js. norm.
  split; [done|]. apply itemCount_bumpOrPush.
Qed.

Lemma guest_cart_survives_reload_witness :
  let w' := (addToCart "a" (Some noon) (session None [] no_faults)).2 in
  items (perform w' Reload) = items w'.
Proof.
  apply (guest_cart_survives_reload (session None [] no_faults) "a" (Some noon)).
  reflexivity.
Defined.

(** X9: removeFromCart never throws.  Unless the delete request of an
    authenticated session fails, it drops exactly the lines of that id from
    the item list and announces 'Item removed from cart', also when the cart
    had no such line; remotely it deletes that user's rows of that id and no
    other row. *)
Theorem removeFromCart_removes_only_that_line (w : World) (eid : string) :
  let w' := (removeFromCart eid w).2 in
  (removeFromCart eid w).1 = Return tt ∧
  ((is_Some (user w) → outcome w 0 = Accept) →
   toasts w' = toasts w ++ [toast_success "Item removed from cart"] ∧
   (∀ item, item ∈ items w' ↔ item ∈ items w ∧ experienceId item ≠ eid) ∧
   (Forall (λ item, experienceId item ≠ eid) (items w) → items w' = items w) ∧
   match user w with
   | None => db w' = db w ∧ sent w' = sent w
   | Some usr =>
     sent w' = sent w ++ [DeleteCartItem (user_id usr) eid] ∧
     ∀ row, row ∈ cart_items (db w') ↔
            row ∈ cart_items (db w) ∧
            ¬ (row_user_id row = user_id usr ∧ row_experience_id row = eid)
   end).
Proof.
  assert (G : ∀ its : list CartItem,
    (∀ item, item ∈ filter (λ item, experienceId item ≠ eid) its ↔
             item ∈ its ∧ experienceId item ≠ eid) ∧
    (Forall (λ item, experienceId item ≠ eid) its →
     filter (λ item, experienceId item ≠ eid) its = its)).
  { intros its. split.
    - intros item. rewrite list_elem_of_filter. tauto.
    - intros H. induction H as [|x l Hx Hl IH]; [done|].
      rewrite filter_cons_True by done. by rewrite IH. }
  open_world w. unfold removeFromCart. js.
  destruct u as [usr|]; norm.
  - destruct (f (length s)) eqn:E; norm.
    all: split; [done|]; intros Hok; try (by discriminate Hok; eauto).
    destruct (G its) as [G1 G2].
    split; [done|]. split; [apply G1|]. split; [apply G2|]. split; [done|].
    intros row. rewrite list_elem_of_filter. tauto.
  - split; [done|]. intros _. destruct (G its) as [G1 G2].
    split; [done|]. split; [apply G1|]. split; [apply G2|]. done.
Qed.

Lemma removeFromCart_removes_only_that_line_witness :
  let w := session None [line "a" 1; line "b" 2] no_faults in
  toasts (removeFromCart "zz" w).2 = [toast_success "Item removed from cart"] ∧
  items (removeFromCart "zz" w).2 = [line "a" 1; line "b" 2].
Proof.
  destruct (removeFromCart_removes_only_that_line
              (session None [line "a" 1; line "b" 2] no_faults) "zz") as [_ H].
  destruct H as (H1 & _ & H3 & _).
  - intros [? [=]].
  - split; [exact H1|]. apply H3. repeat constructor; discriminate.
Defined.
(** X10: clearCart never throws and never writes the stored guest cart.
    Unless the delete request of an authenticated session fails, it empties
    the item list and announces 'Cart cleared'; remotely it deletes the rows
    of that user and no row of anyone else.  When the request fails, the item
    list and the remote tables stay as they were. *)
Theorem clearCart_empties_own_cart (w : World) :
  let w' := (clearCart w).2 in
  (clearCart w).1 = Return tt ∧ localStorage w' = localStorage w ∧
  ((is_Some (user w) → outcome w 0 = Accept) →
   items w' = [] ∧ itemCount (items w') = 0 ∧
   toasts w' = toasts w ++ [toast_success "Cart cleared"] ∧
   match user w with
   | None => db w' = db w ∧ sent w' = sent w
   | Some usr =>
     sent w' = sent w ++ [DeleteCart (user_id usr)] ∧
     ∀ row, row ∈ cart_items (db w') ↔
            row ∈ cart_items (db w) ∧ row_user_id row ≠ user_id usr
   end) ∧
  (is_Some (user w) → outcome w 0 ≠ Accept → items w' = items w ∧ db w' = db w).
Proof.
  open_world w. unfold clearCart. js.
  destruct u as [usr|]; norm.
  - destruct (f (length s)) eqn:E; norm.
    all: split; [done|]; split; [done|]; split; [|try done; by intros _ []].
    all: intros Hok; try (by discriminate Hok; eauto).
    split; [done|]. split; [done|]. split; [done|]. split; [done|].
    intros row. rewrite list_elem_of_filter. tauto.
  - repeat split; try done.
Qed.

Lemma clearCart_empties_own_cart_witness :
  let w := (addToCart "a" None (session (Some alice) [] no_faults)).2 in
  items w = [line "a" 1] ∧ items (clearCart w).2 = [] ∧
  toasts (clearCart w).2 = [toast_success "Cart cleared"].
Proof.
  split; [reflexivity|].
  destruct (clearCart_empties_own_cart
              (addToCart "a" None (session (Some alice) [] no_faults)).2)
    as (_ & _ & H & _).
  destruct H as (H1 & _ & H3 & _); [reflexivity|].
  split; [exact H1 | exact H3].
Defined.

Lemma setQuantity_absent (eid : string) (q : Z) (its : list CartItem) :
  Forall (λ item, experienceId item ≠ eid) its → setQuantity eid q <$> its = its.
Proof.
  intros H. induction H as [|x l Hx Hl IH]; [done|].
  rewrite fmap_cons, IH. unfold setQuantity. by rewrite decide_False.
Qed.

(** X11: updateQuantity never creates a line: for an id that has no line
    in the cart the item list is left exactly as it was, whatever the
    quantity and whatever becomes of the request; the only trace of a
    positive quantity is the update request an authenticated session still
    sends. *)
Theorem updateQuantity_absent_id (w : World) (eid : string) (q : Z) :
  Forall (λ item, experienceId item ≠ eid) (items w) →
  let w' := (updateQuantity eid q w).2 in
  items w' = items w ∧
  (1 ≤ q →
   match user w with
   | None => sent w' = sent w ∧ toasts w' = toasts w
   | Some usr => sent w' = sent w ++ [UpdateCartQuantity (user_id usr) eid q (now w)]
   end).
Proof.
  assert (G : ∀ its : list CartItem,
    Forall (λ item, experienceId item ≠ eid) its →
    filter (λ item, experienceId item ≠ eid) its = its).
  { intros its H. induction H as [|x l Hx Hl IH]; [done|].
    rewrite filter_cons_True by done. by rewrite IH. }
  open_world w. cbn [now]. intros Habs.
  unfold updateQuantity, removeFromCart. js.
  destruct (decide (q ≤ 0)) as [Hq|Hq].
  - rewrite bool_decide_eq_true_2 by done.
    destruct u as [usr|]; norm.
    + destruct (f (length s)); norm; (split; [by rewrite ?G|lia]).
    + split; [by rewrite G|lia].
  - rewrite bool_decide_eq_false_2 by done.
    destruct u as [usr|]; norm.
    + destruct (f (length s)); norm; by rewrite ?setQuantity_absent.
    + by rewrite setQuantity_absent.
Qed.

Lemma updateQuantity_absent_id_witness :
  let w := session None [line "a" 1] no_faults in
  items (updateQuantity "zz" 4 w).2 = [line "a" 1].
Proof.
  apply (updateQuantity_absent_id (session None [line "a" 1] no_faults) "zz" 4).
  repeat constructor. discriminate.
Defined.

(** X12: when every line has a quantity of at least 1, the derived itemCount
    is at least the number of lines, and it is 0 exactly for the empty
    cart. *)
Theorem itemCount_at_least_lines (its : list CartItem) :
  Forall (λ item, 1 ≤ quantity item) its →
  Z.of_nat (length its) ≤ itemCount its ∧ (itemCount its = 0 ↔ its = []).
Proof.
  intros H.
  assert (Hlen : Z.of_nat (length its) ≤ itemCount its).
  { induction H as [|x l Hx Hl IH]; [done|].
    rewrite itemCount_cons. cbn [length]. lia. }
  split; [done|]. split.
  - destruct its as [|x l]; [done|]. cbn [length] in Hlen. lia.
  - by intros ->.
Qed.

Lemma itemCount_at_least_lines_witness :
  2 ≤ itemCount [line "a" 3; line "b" 1].
Proof.
  apply (itemCount_at_least_lines [line "a" 3; line "b" 1]).
  repeat constructor; cbn; lia.
Defined.






(** X14: what checkout books does not depend on the totalPrice the context
    displays: with any other displayed value it returns the same result,
    sends the same requests and leaves the same tables and item list.  A
    checkout whose bookings insert is accepted books the sum over the
    current lines of cached price times quantity, which is the displayed
    total only when that one is current. *)
Theorem checkout_ignores_displayed_total (w : World) (shown : Z) :
  let w_shown := (setTotalPrice shown w).2 in
  ((checkout w_shown).1 = (checkout w).1 ∧
   db (checkout w_shown).2 = db (checkout w).2 ∧
   sent (checkout w_shown).2 = sent (checkout w).2 ∧
   items (checkout w_shown).2 = items (checkout w).2 ∧
   toasts (checkout w_shown).2 = toasts (checkout w).2) ∧
  (∀ usr, user w = Some usr → items w ≠ [] → outcome w 0 = Accept →
     ∃ booking,
       bookings (db (checkout w).2) = bookings (db w) ++ [booking] ∧
       booking_user_id booking = user_id usr ∧ status booking = "confirmed" ∧
       total_amount booking = sumZ (lineTotal (experienceCache w) <$> items w) ∧
       (totalPrice w = sumZ (lineTotal (experienceCache w) <$> items w) →
        total_amount booking = totalPrice w)).
Proof.
  open_world w. rewrite <- cartTotal_sum. split.
  - unfold checkout, clearCart, setTotalPrice. js.
    destruct u as [usr|]; [destruct its as [|it its]|]; norm; try done.
    rewrite !bool_decide_eq_false_2 by done.
    on_outcome E1; [on_outcome E2; [on_outcome E3|..]|..]; done.
  - intros usr -> Hne E0. destruct its as [|it its]; [done|].
    unfold checkout, clearCart. js. norm.
    rewrite bool_decide_eq_false_2 by done. norm. rewrite E0. norm.
    on_outcome E1; [on_outcome E2|..].
    all: eexists; (split; [reflexivity|]); cbn.
    all: split; [done|]; split; [done|]; split; [done|]; by intros ->.
Qed.

Lemma checkout_ignores_displayed_total_witness :
  let w := session (Some alice) [line "a" 2; line "b" 1] no_faults in
  ∃ booking,
    bookings (db (checkout w).2) = [booking] ∧ total_amount booking = 200.
Proof.
  destruct (checkout_ignores_displayed_total
              (session (Some alice) [line "a" 2; line "b" 1] no_faults) 0)
    as [_ H].
  destruct (H alice) as (booking & H1 & _ & _ & H4 & _);
    [reflexivity | discriminate | reflexivity |].
  exists booking. split; [exact H1 | exact H4].
Defined.

(** X15: when the bookings insert is accepted and the booking_items insert
    is not, checkout returns false without a toast and without any
    compensating request: the new booking row stays, no item row exists for
    it, and the cart (item list and remote rows) is exactly as before. *)
Theorem checkout_leaves_orphan_booking (w : World) (usr : User) :
  user w = Some usr → items w ≠ [] →
  outcome w 0 = Accept → outcome w 1 ≠ Accept →
  let w' := (checkout w).2 in
  (checkout w).1 = Return false ∧
  (∃ booking rows,
     bookings (db w') = bookings (db w) ++ [booking] ∧
     total_amount booking = cartTotal (experienceCache w) (items w) ∧
     sent w' = sent w ++ [InsertBooking (user_id usr) (total_amount booking);
                          InsertBookingItems rows]) ∧
  booking_items (db w') = booking_items (db w) ∧
  cart_items (db w') = cart_items (db w) ∧
  items w' = items w ∧ toasts w' = toasts w.
Proof.
  open_world w. intros -> Hne E0 E1. destruct its as [|it its]; [done|].
  unfold checkout, clearCart. js. norm.
  rewrite bool_decide_eq_false_2 by done. norm. rewrite E0. norm.
  destruct (f (S (length s))) eqn:E; [done|..]; norm.
  all: rewrite <- !app_assoc; repeat split; by do 2 eexists.
Qed.

Lemma checkout_leaves_orphan_booking_witness :
  let w := session (Some alice) [line "a" 2] (fail_at 1) in
  (checkout w).1 = Return false ∧
  length (bookings (db (checkout w).2)) = 1%nat ∧
  booking_items (db (checkout w).2) = [] ∧
  items (checkout w).2 = [line "a" 2].
Proof.
  destruct (checkout_leaves_orphan_booking (session (Some alice) [line "a" 2] (fail_at 1)) alice)
    as (H1 & (b & rows & H2 & _) & H3 & _ & H5 & _);
    [reflexivity | discriminate | reflexivity | discriminate |].
  split; [exact H1|]. split; [by rewrite H2|]. split; [exact H3 | exact H5].
Defined.

(** X16: after a checkout whose three requests (two inserts, then the delete
    of clearCart) are accepted, the item list is empty, the user's remote
    cart rows are gone while the rows of other users and the stored guest
    cart are untouched, and booking_items holds one new row per former cart
    line, in order, with that line's experience id and quantity. *)
Theorem checkout_success_effects (w : World) (usr : User) :
  user w = Some usr → items w ≠ [] →
  outcome w 0 = Accept → outcome w 1 = Accept → outcome w 2 = Accept →
  let w' := (checkout w).2 in
  (checkout w).1 = Return true ∧
  items w' = [] ∧ localStorage w' = localStorage w ∧
  toasts w' = toasts w ++ [toast_success "Cart cleared"] ∧
  (∀ row, row ∈ cart_items (db w') ↔
          row ∈ cart_items (db w) ∧ row_user_id row ≠ user_id usr) ∧
  (∃ rows,
     booking_items (db w') = booking_items (db w) ++ rows ∧
     item_experience_id <$> rows = experienceId <$> items w ∧
     item_quantity <$> rows = quantity <$> items w) ∧
  length (bookings (db w')) = S (length (bookings (db w))).
Proof.
  open_world w. intros -> Hne E0 E1 E2. destruct its as [|it its]; [done|].
  unfold checkout, clearCart. js. norm.
  rewrite bool_decide_eq_false_2 by done. norm. rewrite E0. norm.
  rewrite E1. norm. rewrite E2. norm.
  split; [done|]. split; [done|]. split; [done|]. split; [done|]. split; [|split].
  - intros row. rewrite list_elem_of_filter. tauto.
  - eexists. split; [reflexivity|]. unfold bookingItems.
    rewrite <- !list_fmap_compose. done.
  - rewrite ?length_app. cbn. lia.
Qed.

Lemma checkout_success_effects_witness :
  let w := session (Some alice) [line "a" 2; line "b" 1] no_faults in
  (checkout w).1 = Return true ∧ items (checkout w).2 = [] ∧
  length (bookings (db (checkout w).2)) = 1%nat.
Proof.
  destruct (checkout_success_effects
              (session (Some alice) [line "a" 2; line "b" 1] no_faults) alice)
    as (H1 & H2 & _ & _ & _ & _ & H7);
    [reflexivity | discriminate | reflexivity..|].
  split; [exact H1|]. split; [exact H2 | exact H7].
Defined.

(** X17: a checkout that succeeded and cleared the cart cannot be repeated:
    calling checkout again returns false with 'Your cart is empty', sends
    nothing and books nothing. *)
Theorem checkout_again_after_success (w : World) (usr : User) :
  user w = Some usr → items w ≠ [] →
  outcome w 0 = Accept → outcome w 1 = Accept → outcome w 2 = Accept →
  let w1 := (checkout w).2 in
  (checkout w1).1 = Return false ∧
  db (checkout w1).2 = db w1 ∧ sent (checkout w1).2 = sent w1 ∧
  toasts (checkout w1).2 = toasts w1 ++ [toast_error "Your cart is empty"].
Proof.
  open_world w. intros -> Hne E0 E1 E2. destruct its as [|it its]; [done|].
  unfold checkout, clearCart. js. norm.
  rewrite bool_decide_eq_false_2 by done. norm. rewrite E0. norm.
  rewrite E1. norm. rewrite E2. by norm.
Qed.

Lemma checkout_again_after_success_witness :
  let w1 := (checkout (session (Some alice) [line "a" 2] no_faults)).2 in
  (checkout w1).1 = Return false ∧ db (checkout w1).2 = db w1.
Proof.
  destruct (checkout_again_after_success (session (Some alice) [line "a" 2] no_faults) alice)
    as (H1 & H2 & _); [reflexivity | discriminate | reflexivity..|].
  split; [exact H1 | exact H2].
Defined.

(** X18: when both inserts are accepted but the delete of clearCart is not,
    checkout has returned true with the cart still full, and calling it again
    books the same cart a second time: two booking rows with different ids
    and the same total_amount, and twice the item rows. *)
Theorem checkout_again_after_failed_clear (w : World) (usr : User) :
  user w = Some usr → items w ≠ [] →
  outcome w 0 = Accept → outcome w 1 = Accept → outcome w 2 ≠ Accept →
  outcome w 3 = Accept → outcome w 4 = Accept →
  let w1 := (checkout w).2 in
  let w2 := (checkout w1).2 in
  (checkout w).1 = Return true ∧ (checkout w1).1 = Return true ∧
  (∃ first second,
     bookings (db w2) = bookings (db w) ++ [first; second] ∧
     total_amount first = total_amount second ∧
     booking_id first ≠ booking_id second) ∧
  length (booking_items (db w2)) =
    (length (booking_items (db w)) + 2 * length (items w))%nat.
Proof.
  open_world w. intros -> Hne E0 E1 E2 E3 E4. destruct its as [|it its]; [done|].
  unfold checkout, clearCart. js. norm.
  rewrite bool_decide_eq_false_2 by done. norm. rewrite E0. norm.
  rewrite E1. norm.
  destruct (f (S (S (length s)))) eqn:E; [done|..]; norm.
  all: rewrite bool_decide_eq_false_2 by done; norm.
  all: rewrite E3; norm; rewrite E4; norm.
  all: destruct (f (S (S (S (S (S (length s))))))); norm.
  all: rewrite <- !app_assoc; repeat split.
  all: try (do 2 eexists; repeat split; cbn; lia).
  all: rewrite ?length_app; unfold bookingItems; rewrite ?length_fmap; cbn; lia.
Qed.

Lemma checkout_again_after_failed_clear_witness :
  let w := session (Some alice) [line "a" 2] (fail_at 2) in
  length (bookings (db (checkout (checkout w).2).2)) = 2%nat ∧
  length (booking_items (db (checkout (checkout w).2).2)) = 2%nat.
Proof.
  destruct (checkout_again_after_failed_clear
              (session (Some alice) [line "a" 2] (fail_at 2)) alice)
    as (_ & _ & (b1 & b2 & H & _) & H4);
    [reflexivity | discriminate | reflexivity | reflexivity | discriminate
    | reflexivity | reflexivity |].
  split; [by rewrite H | exact H4].
Defined.
(** ** Invariants of the cart under every operation *)

Lemma Forall_filter_keep {A} (P Q : A → Prop) `{∀ x, Decision (Q x)} (l : list A) :
  Forall P l → Forall P (filter Q l).
Proof.
  rewrite !Forall_forall. intros HP x [_ Hx]%list_elem_of_filter. by apply HP.
Qed.

Lemma positive_rows_items (Q : CartRow → Prop) `{∀ x, Decision (Q x)} (rows : list CartRow) :
  Forall (λ row, 1 ≤ row_quantity row) rows →
  Forall (λ item, 1 ≤ quantity item) (toCartItem <$> filter Q rows).
Proof.
  intros HP. apply Forall_fmap. by apply Forall_filter_keep.
Qed.

Lemma positive_bumpOrPush (eid : string) (dt : option Date) (l : list CartItem) :
  Forall (λ item, 1 ≤ quantity item) l →
  Forall (λ item, 1 ≤ quantity item) (bumpOrPush eid dt l).
Proof.
  intros H. unfold bumpOrPush. destruct (list_find _ l) as [[i x]|].
  - apply Forall_alter; [done|]. intros y _ Hy. cbn. lia.
  - apply Forall_app_2; [done|]. repeat constructor. cbn. lia.
Qed.

Lemma positive_setQuantity (eid : string) (q : Z) (l : list CartItem) :
  1 ≤ q → Forall (λ item, 1 ≤ quantity item) l →
  Forall (λ item, 1 ≤ quantity item) (setQuantity eid q <$> l).
Proof.
  intros Hq H. apply Forall_fmap. eapply Forall_impl; [exact H|].
  intros x Hx. unfold setQuantity. cbn. by case_decide.
Qed.

Lemma positive_touch (rid : nat) (q : Z) dt stamp (rows : list CartRow) :
  1 ≤ q → Forall (λ row, 1 ≤ row_quantity row) rows →
  Forall (λ row, 1 ≤ row_quantity row) (touch rid q dt stamp <$> rows).
Proof.
  intros Hq H. apply Forall_fmap. eapply Forall_impl; [exact H|].
  intros x Hx. unfold touch. cbn. by case_decide.
Qed.

Lemma filter_singleton_elem {A} (Q : A → Prop) `{∀ x, Decision (Q x)} (l : list A) x :
  filter Q l = [x] → x ∈ l ∧ Q x.
Proof.
  intros E. assert (Hx : x ∈ filter Q l) by (rewrite E; apply list_elem_of_here).
  apply list_elem_of_filter in Hx. tauto.
Qed.

Ltac positive :=
  repeat split; cbn;
  first
    [ done
    | apply Forall_nil
    | by apply positive_bumpOrPush
    | by apply positive_rows_items
    | by apply Forall_filter_keep
    | by apply positive_setQuantity; [lia|]
    | by auto using positive_rows_items ].

Lemma quantitiesPositive_perform (w : World) (a : Action) :
  quantitiesPositive w → quantitiesPositive (perform w a).
Proof.
  unfold quantitiesPositive. open_world w. intros (Hi & Hl & Hr).
  destruct a as [eid dt | eid | eid q | | | |]; cbn [perform].
  - unfold addToCart, fetchCartItems. js.
    destruct u as [usr|]; norm; [|positive].
    on_outcome E1; try positive.
    destruct (filter _ (experiences d)) as [|? [|? ?]]; norm; try positive.
    assert (T : ∀ x dt' stamp, x ∈ cart_items d →
              Forall (λ row, 1 ≤ row_quantity row)
                (touch (row_id x) (row_quantity x + 1) dt' stamp <$> cart_items d)).
    { intros x dt' stamp Hx. apply positive_touch; [|done].
      rewrite Forall_forall in Hr. specialize (Hr x Hx). cbn in Hr. lia. }
    assert (N : ∀ uid dt' stamp k,
              Forall (λ row, 1 ≤ row_quantity row)
                (cart_items d ++
                 [{| row_id := k; row_user_id := uid; row_experience_id := eid;
                     row_quantity := 1; row_date := dt'; row_created_at := stamp;
                     row_updated_at := stamp |}])).
    { intros. apply Forall_app_2; [done|]. by repeat constructor. }
    on_outcome E2; try positive.
    + destruct (filter _ (cart_items d)) as [|x [|? ?]] eqn:F; norm.
      all: try (apply filter_singleton_elem in F as [F _]).
      all: on_outcome E3; try positive.
      all: on_outcome E4; positive.
    + destruct (String.eqb (code e) "PGRST116"); norm; [|positive].
      on_outcome E3; try positive.
      all: on_outcome E4; positive.
  - unfold removeFromCart. js.
    destruct u as [usr|]; norm; [|positive].
    on_outcome E1; positive.
  - unfold updateQuantity, removeFromCart. js.
    destruct (decide (q ≤ 0)) as [Hq|Hq].
    + rewrite bool_decide_eq_true_2 by done.
      destruct u as [usr|]; norm; [|positive].
      on_outcome E1; positive.
    + rewrite bool_decide_eq_false_2 by done.
      destruct u as [usr|]; norm; [|positive].
      assert (U : ∀ uid stamp,
                Forall (λ row, 1 ≤ row_quantity row)
                  (cart_items (update_cart_quantity uid eid q stamp d).2)).
      { intros. cbn. apply Forall_fmap. eapply Forall_impl; [exact Hr|].
        intros x Hx. cbn. case_decide; cbn; [lia|done]. }
      on_outcome E1; try positive.
      repeat split; cbn; [by apply positive_setQuantity; [lia|]|done|apply U].
  - unfold clearCart. js.
    destruct u as [usr|]; norm; [|positive].
    on_outcome E1; positive.
  - unfold checkout, clearCart. js.
    destruct u as [usr|]; [destruct its as [|it its]|]; norm; try positive.
    rewrite bool_decide_eq_false_2 by done.
    on_outcome E1; [on_outcome E2; [on_outcome E3|..]|..]; positive.
  - unfold loadCart, fetchCartItems. js.
    destruct u as [usr|]; norm.
    + on_outcome E1; positive.
    + destruct ls; positive.
  - unfold loadCart, fetchCartItems, mount. js.
    destruct u as [usr|]; norm.
    + on_outcome E1; positive.
    + destruct ls; positive.
Qed.

(** X19: as long as every quantity handed to updateQuantity is a whole
    number and each operation is awaited before the next starts, no sequence
    of cart operations (adding, removing, setting a quantity, clearing,
    checking out, loading, reloading the page), under any pattern of failing
    requests, leaves a quantity below 1 in the item list, in the stored
    guest cart or in the remote cart, provided none was there to begin
    with.  (Quantities are integers here; a fractional quantity passes the
    guard of updateQuantity and is outside this statement.) *)
Theorem quantities_stay_positive (w : World) (script : list Action) :
  quantitiesPositive w → quantitiesPositive (performAll w script).
Proof.
  unfold performAll. revert w.
  induction script as [|a script IH]; intros w H; [done|].
  cbn [fold_left]. by apply IH, quantitiesPositive_perform.
Qed.

Lemma quantities_stay_positive_witness :
  quantitiesPositive
    (performAll (session (Some alice) [] (fail_at 5))
       [AddToCart "a" None; AddToCart "a" None; UpdateQuantity "a" 0;
        AddToCart "b" None; UpdateQuantity "b" (-2); Checkout]).
Proof.
  apply (quantities_stay_positive (session (Some alice) [] (fail_at 5))).
  repeat split; constructor.
Defined.
Lemma NoDup_fmap_filter {A B} (f : A → B) (Q : A → Prop) `{∀ x, Decision (Q x)}
    (l : list A) :
  NoDup (f <$> l) → NoDup (f <$> filter Q l).
Proof.
  intros Hl. eapply sublist_NoDup; [exact Hl|].
  apply fmap_sublist, sublist_filter.
Qed.

Lemma ids_setQuantity (eid : string) (q : Z) (l : list CartItem) :
  experienceId <$> (setQuantity eid q <$> l) = experienceId <$> l.
Proof.
  rewrite <- list_fmap_compose. apply list_fmap_ext. intros _ x _.
  unfold setQuantity. cbn. by case_decide.
Qed.

Lemma keys_touch rid q dt stamp (rows : list CartRow) :
  rowKey <$> (touch rid q dt stamp <$> rows) = rowKey <$> rows.
Proof.
  rewrite <- list_fmap_compose. apply list_fmap_ext. intros _ x _.
  unfold touch. cbn. by case_decide.
Qed.

Lemma keys_update_cart_quantity uid eid q stamp (d : Database) :
  rowKey <$> cart_items (update_cart_quantity uid eid q stamp d).2 =
  rowKey <$> cart_items d.
Proof.
  cbn. rewrite <- list_fmap_compose. apply list_fmap_ext. intros _ x _.
  cbn. by case_decide.
Qed.

Lemma NoDup_bumpOrPush (eid : string) (dt : option Date) (l : list CartItem) :
  NoDup (experienceId <$> l) → NoDup (experienceId <$> bumpOrPush eid dt l).
Proof.
  intros Hl. unfold bumpOrPush. destruct (list_find _ l) as [[i x]|] eqn:E.
  - by rewrite alter_bump_ids.
  - apply list_find_None in E. rewrite fmap_app. apply NoDup_app.
    split; [done|]. split; [|apply NoDup_singleton].
    intros k (x & Hk & Hx)%list_elem_of_fmap Hin.
    cbn in Hin. apply list_elem_of_singleton in Hin.
    rewrite Forall_forall in E. apply (E x Hx). congruence.
Qed.

Lemma NoDup_rows_items (uid : string) (rows : list CartRow) :
  NoDup (rowKey <$> rows) →
  NoDup (experienceId <$>
           (toCartItem <$> filter (λ r, row_user_id r = uid) rows)).
Proof.
  intros Hk.
  apply (NoDup_fmap_filter rowKey (λ r, row_user_id r = uid)) in Hk.
  assert (Hu : Forall (λ r, row_user_id r = uid) (filter (λ r, row_user_id r = uid) rows)).
  { apply Forall_forall. by intros r [? _]%list_elem_of_filter. }
  revert Hk Hu. generalize (filter (λ r, row_user_id r = uid) rows). intros l.
  rewrite <- list_fmap_compose.
  induction l as [|r l IH]; intros Hk Hu; [constructor|].
  rewrite fmap_cons in Hk. apply NoDup_cons in Hk as [Hr Hl].
  apply Forall_cons in Hu as [Hru Hlu].
  rewrite fmap_cons. apply NoDup_cons. split; [|by apply IH].
  intros (r' & Heq & Hr')%list_elem_of_fmap. apply Hr.
  apply list_elem_of_fmap. exists r'. split; [|done].
  rewrite Forall_forall in Hlu. specialize (Hlu r' Hr').
  unfold rowKey. cbn in Heq. congruence.
Qed.

Lemma filter_key_absent (uid eid : string) (rows : list CartRow) :
  filter (λ r, row_user_id r = uid ∧ row_experience_id r = eid) rows = [] →
  (uid, eid) ∉ rowKey <$> rows.
Proof.
  intros F (r & Hk & Hr)%list_elem_of_fmap.
  assert (Hin : r ∈ filter (λ r, row_user_id r = uid ∧ row_experience_id r = eid) rows).
  { apply list_elem_of_filter. unfold rowKey in Hk. split; [|done].
    split; congruence. }
  rewrite F in Hin. by apply elem_of_nil in Hin.
Qed.

Lemma filter_key_two (uid eid : string) (rows : list CartRow) x y l :
  NoDup (rowKey <$> rows) →
  filter (λ r, row_user_id r = uid ∧ row_experience_id r = eid) rows = x :: y :: l →
  False.
Proof.
  intros Hk F.
  apply (NoDup_fmap_filter rowKey
           (λ r, row_user_id r = uid ∧ row_experience_id r = eid)) in Hk.
  assert (Hx : x ∈ filter (λ r, row_user_id r = uid ∧ row_experience_id r = eid) rows)
    by (rewrite F; apply list_elem_of_here).
  assert (Hy : y ∈ filter (λ r, row_user_id r = uid ∧ row_experience_id r = eid) rows)
    by (rewrite F; apply list_elem_of_further, list_elem_of_here).
  apply list_elem_of_filter in Hx as [[Hx1 Hx2] _].
  apply list_elem_of_filter in Hy as [[Hy1 Hy2] _].
  rewrite F, !fmap_cons in Hk. apply NoDup_cons in Hk as [Hk _].
  apply Hk. unfold rowKey. rewrite Hx1, Hx2, Hy1, Hy2. apply list_elem_of_here.
Qed.

Lemma NoDup_insert_row (uid eid : string) (rows : list CartRow) (new : CartRow) :
  NoDup (rowKey <$> rows) →
  filter (λ r, row_user_id r = uid ∧ row_experience_id r = eid) rows = [] →
  rowKey new = (uid, eid) →
  NoDup (rowKey <$> (rows ++ [new])).
Proof.
  intros Hk F Hnew. rewrite fmap_app. apply NoDup_app.
  split; [done|]. split; [|apply NoDup_singleton].
  intros k Hin Hone. cbn in Hone. apply list_elem_of_singleton in Hone.
  rewrite Hone, Hnew in Hin. by apply filter_key_absent in F.
Qed.

Ltac distinct :=
  repeat split; cbn;
  first
    [ done
    | apply NoDup_nil_2
    | by apply NoDup_bumpOrPush
    | by apply NoDup_rows_items
    | by apply NoDup_fmap_filter
    | by rewrite ids_setQuantity
    | by rewrite keys_touch
    | by auto using NoDup_rows_items ].

Lemma faults_perform (w : World) (a : Action) : faults (perform w a) = faults w.
Proof.
  open_world w.
  destruct a as [eid dt | eid | eid q | | | |]; cbn [perform].
  - unfold addToCart, fetchCartItems. js.
    destruct u as [usr|]; norm; [|done].
    on_outcome E1; try done.
    destruct (filter _ (experiences d)) as [|? [|? ?]]; norm; try done.
    on_outcome E2; try done.
    + destruct (filter _ (cart_items d)) as [|? [|? ?]]; norm.
      all: on_outcome E3; try done.
      all: on_outcome E4; done.
    + destruct (String.eqb (code e) "PGRST116"); norm; [|done].
      on_outcome E3; try done.
      on_outcome E4; done.
  - unfold removeFromCart. js.
    destruct u as [usr|]; norm; [|done]. on_outcome E1; done.
  - unfold updateQuantity, removeFromCart. js.
    destruct (bool_decide (q ≤ 0)); destruct u as [usr|]; norm; try done.
    all: on_outcome E1; done.
  - unfold clearCart. js.
    destruct u as [usr|]; norm; [|done]. on_outcome E1; done.
  - unfold checkout, clearCart. js.
    destruct u as [usr|]; [destruct its as [|it its]|]; norm; try done.
    rewrite bool_decide_eq_false_2 by done.
    on_outcome E1; [on_outcome E2; [on_outcome E3|..]|..]; done.
  - unfold loadCart, fetchCartItems. js.
    destruct u as [usr|]; norm; [on_outcome E1; done | by destruct ls].
  - unfold loadCart, fetchCartItems, mount. js.
    destruct u as [usr|]; norm; [on_outcome E1; done | by destruct ls].
Qed.

Lemma noDuplicateLines_perform (w : World) (a : Action) :
  refusalsAreNotPGRST116 w → noDuplicateLines w → noDuplicateLines (perform w a).
Proof.
  unfold noDuplicateLines, refusalsAreNotPGRST116.
  open_world w. intros Hf (Hi & Hl & Hr).
  destruct a as [eid dt | eid | eid q | | | |]; cbn [perform].
  - unfold addToCart, fetchCartItems. js.
    destruct u as [usr|]; norm; [|distinct].
    on_outcome E1; try distinct.
    destruct (filter _ (experiences d)) as [|? [|? ?]]; norm; try distinct.
    on_outcome E2; try distinct.
    + destruct (filter _ (cart_items d)) as [|x [|y l]] eqn:F; norm.
      3: { exfalso. eapply filter_key_two; [exact Hr|exact F]. }
      * assert (N : ∀ k dt' stamp,
                  NoDup (rowKey <$> (cart_items d ++
                    [{| row_id := k; row_user_id := user_id usr;
                        row_experience_id := eid; row_quantity := 1;
                        row_date := dt'; row_created_at := stamp;
                        row_updated_at := stamp |}]))).
        { intros. by eapply NoDup_insert_row. }
        on_outcome E3; try distinct.
        all: on_outcome E4; distinct.
      * on_outcome E3; try distinct.
        all: on_outcome E4; try distinct.
        all: repeat split; cbn; try done; try (by rewrite keys_touch).
        by apply NoDup_rows_items; rewrite keys_touch.
    + apply Hf in E2. apply String.eqb_neq in E2. rewrite E2. norm. distinct.
  - unfold removeFromCart. js.
    destruct u as [usr|]; norm; [|distinct].
    on_outcome E1; distinct.
  - unfold updateQuantity, removeFromCart. js.
    destruct (decide (q ≤ 0)) as [Hq|Hq].
    + rewrite bool_decide_eq_true_2 by done.
      destruct u as [usr|]; norm; [|distinct].
      on_outcome E1; distinct.
    + rewrite bool_decide_eq_false_2 by done.
      destruct u as [usr|]; norm; [|distinct].
      pose proof (keys_update_cart_quantity (user_id usr) eid q n d) as U.
      cbn in U.
      on_outcome E1; try distinct.
      repeat split; cbn; [by rewrite ids_setQuantity|done|by rewrite U].
  - unfold clearCart. js.
    destruct u as [usr|]; norm; [|distinct].
    on_outcome E1; distinct.
  - unfold checkout, clearCart. js.
    destruct u as [usr|]; [destruct its as [|it its]|]; norm; try distinct.
    rewrite bool_decide_eq_false_2 by done.
    on_outcome E1; [on_outcome E2; [on_outcome E3|..]|..]; distinct.
  - unfold loadCart, fetchCartItems. js.
    destruct u as [usr|]; norm.
    + on_outcome E1; distinct.
    + destruct ls; distinct.
  - unfold loadCart, fetchCartItems, mount. js.
    destruct u as [usr|]; norm.
    + on_outcome E1; distinct.
    + destruct ls; distinct.
Qed.

(** X20: as long as each operation is awaited before the next starts, no
    sequence of cart operations produces two lines of one experience, in the
    item list, in the stored guest cart or, for any user, in the remote
    cart, provided there was none to begin with and the data service reports
    PGRST116 only for a [single] that did not find exactly one row.  (Two
    addToCart calls that overlap are outside this statement: nothing guards
    the gap between the lookup and the insert.) *)
Theorem lines_stay_distinct (w : World) (script : list Action) :
  refusalsAreNotPGRST116 w → noDuplicateLines w →
  noDuplicateLines (performAll w script).
Proof.
  unfold performAll. revert w.
  induction script as [|a script IH]; intros w Hf H; [done|].
  cbn [fold_left]. apply IH.
  - unfold refusalsAreNotPGRST116. rewrite faults_perform. exact Hf.
  - by apply noDuplicateLines_perform.
Qed.

Lemma lines_stay_distinct_witness :
  noDuplicateLines
    (performAll (session (Some alice) [] (fail_at 6))
       [AddToCart "a" None; AddToCart "a" (Some noon); AddToCart "b" None;
        UpdateQuantity "a" 4; RemoveFromCart "b"; AddToCart "b" None]).
Proof.
  apply (lines_stay_distinct (session (Some alice) [] (fail_at 6))).
  - intros n e. cbn. unfold fail_at. case_decide; [|discriminate].
    intros [= <-]. discriminate.
  - repeat split; constructor.
Defined.

End CartFacts.

(** * Properties of the provider-application service *)

Module ProviderFacts.
Import ProviderService.

Section Facts.

Context {number : Type} (parseFloat : string → number).

Ltac run :=
  unfold submitProviderApplication, insert_provider, insert_experience, toast, get,
    try_catch, mbind, M_bind, bind, mret, M_ret, ret, throw;
  cbn; rewrite ?length_app, ?Nat.add_1_r; cbn.

(** C7: submitProviderApplication first inserts the provider row and then,
    only if experienceDetails is present, an experience row carrying the new
    provider's id.  If either insert is refused or throws, it resolves to
    [{success: false, error}] with that error after exactly one toast; a
    failed experience insert leaves the provider row in place.  Otherwise it
    resolves to [{success: true, data}] with the provider row, without a
    toast. *)
Theorem submitProviderApplication_two_inserts (formData : FormData) (w : @World number) :
  let row := providerRow formData w in
  let r := (submitProviderApplication parseFloat formData w).1 in
  let w' := (submitProviderApplication parseFloat formData w).2 in
  let oops := toasts w ++ [toast_error "Failed to submit application. Please try again."] in
  match outcome w 0 with
  | Accept =>
    providers w' = providers w ++ [row] ∧
    match experienceDetails formData with
    | None =>
      r = Return (Succeeded (Some row)) ∧
      sent w' = sent w ++ [InsertProvider row] ∧
      experiences w' = experiences w ∧ toasts w' = toasts w
    | Some details =>
      let exp := experienceRow parseFloat row details in
      provider_id exp = id row ∧
      sent w' = sent w ++ [InsertProvider row; InsertExperience exp] ∧
      match outcome w 1 with
      | Accept =>
        r = Return (Succeeded (Some row)) ∧
        experiences w' = experiences w ++ [exp] ∧ toasts w' = toasts w
      | Reject e =>
        r = Return (Failed (ServiceError e)) ∧
        experiences w' = experiences w ∧ toasts w' = oops
      | Throw t =>
        r = Return (Failed t) ∧
        experiences w' = experiences w ∧ toasts w' = oops
      end
    end
  | Reject e =>
    r = Return (Failed (ServiceError e)) ∧
    providers w' = providers w ∧ experiences w' = experiences w ∧
    sent w' = sent w ++ [InsertProvider row] ∧ toasts w' = oops
  | Throw t =>
    r = Return (Failed t) ∧
    providers w' = providers w ∧ experiences w' = experiences w ∧
    sent w' = sent w ++ [InsertProvider row] ∧ toasts w' = oops
  end.
Proof.
  destruct w as [ps es k f s ts n]. unfold outcome. cbn [faults sent plus].
  run. destruct (f (length s)) eqn:E0; cbn; [|done..].
  destruct (experienceDetails formData) as [details|]; cbn; [|done].
  rewrite length_app, Nat.add_1_r. cbn.
  destruct (f (S (length s))) eqn:E1; cbn; rewrite <- ?app_assoc; done.
Qed.

End Facts.

(** The service run on a concrete application whose second insert is
    refused: one toast, a failure result, and the provider row stays. *)
Example submitProviderApplication_second_insert_refused :
  let r := submitProviderApplication (λ _, 1200) application (desk (fail_at 1)) in
  r.1 = Return (Failed (ServiceError {| code := "500"; message := "unavailable" |})) ∧
  length (providers r.2) = 1%nat ∧ experiences r.2 = [] ∧
  toasts r.2 = [toast_error "Failed to submit application. Please try again."].
Proof. repeat split. Qed.

End ProviderFacts.

(** * Properties of the other provider functions *)

Module ProviderAdminFacts.
Import ProviderAdmin.

Section Facts.

Context {number : Type} (parseFloat : string → number).
Context (byJoinDateDescending : list ProviderService.ProviderRow →
                                list ProviderService.ProviderRow).

Ltac run :=
  unfold getProviders, updateProviderStatus, getProviderDetails, request,
    try_catch, mbind, M_bind, bind, mret, M_ret, ret, throw;
  cbn.

Lemma filter_none {A} (Q : A → Prop) `{∀ x, Decision (Q x)} (l : list A) :
  Forall (λ x, ¬ Q x) l → filter Q l = [].
Proof.
  intros HQ. induction HQ as [|x l Hx Hl IH]; [done|].
  by rewrite filter_cons_False.
Qed.

(** X21: updateProviderStatus never throws and sends one update.  When it is
    accepted the result is [{success: true}], also when no provider has that
    id, in which case the table is unchanged; otherwise every row of that id
    carries the new status and differs from the old row in nothing else, and
    all other rows and the experiences are untouched.  When it is refused or
    throws, the result is [{success: false, error}] and nothing changed. *)
Theorem updateProviderStatus_changes_only_status (w : @Tables number)
    (providerId : nat) (status : string) :
  let r := (updateProviderStatus providerId status w).1 in
  let w' := (updateProviderStatus providerId status w).2 in
  experiences w' = experiences w ∧
  sent w' = sent w ++ [UpdateStatus providerId status] ∧
  match outcome w 0 with
  | Accept =>
    r = Return (Succeeded tt) ∧
    (∀ i row, providers w !! i = Some row →
       providers w' !! i =
         Some (if decide (ProviderService.id row = providerId)
               then withStatus status row else row)) ∧
    length (providers w') = length (providers w) ∧
    (Forall (λ row, ProviderService.id row ≠ providerId) (providers w) →
     providers w' = providers w)
  | Reject e => r = Return (Failed (ServiceError e)) ∧ providers w' = providers w
  | Throw t => r = Return (Failed t) ∧ providers w' = providers w
  end.
Proof.
  destruct w as [ps es f s]. unfold outcome. cbn [faults sent plus providers experiences].
  run. destruct (f (length s)) eqn:E; cbn; [|done..].
  repeat split.
  - intros i row Hi. by rewrite list_lookup_fmap, Hi.
  - by rewrite length_fmap.
  - intros Hno. induction Hno as [|x l Hx Hl IH]; [done|].
    rewrite fmap_cons, IH. by rewrite decide_False.
Qed.

(** X22: getProviders and getProviderDetails never throw and never change
    the tables.  getProviders fails exactly when its request does.  An
    accepted getProviderDetails for an id no provider has resolves to
    [{success: false}] with the PGRST116 error; whenever it succeeds with a
    row, that row is a provider of that id and the experiences returned with
    it are exactly the experience rows that reference the id. *)
Theorem provider_reads_are_safe (w : @Tables number) (providerId : nat) :
  let list := getProviders byJoinDateDescending w in
  let details := getProviderDetails providerId w in
  providers list.2 = providers w ∧ experiences list.2 = experiences w ∧
  providers details.2 = providers w ∧ experiences details.2 = experiences w ∧
  match outcome w 0 with
  | Accept =>
    list.1 = Return (Succeeded (Some (byJoinDateDescending (providers w)))) ∧
    (Forall (λ row, ProviderService.id row ≠ providerId) (providers w) →
     details.1 = Return (Failed (ServiceError PGRST116))) ∧
    (∀ row exps, details.1 = Return (Succeeded (Some (row, exps))) →
       row ∈ providers w ∧ ProviderService.id row = providerId ∧
       exps = filter (λ e, ProviderService.provider_id e = providerId) (experiences w))
  | Reject e =>
    list.1 = Return (Failed (ServiceError e)) ∧
    details.1 = Return (Failed (ServiceError e))
  | Throw t => list.1 = Return (Failed t) ∧ details.1 = Return (Failed t)
  end.
Proof.
  destruct w as [ps es f s]. unfold outcome. cbn [faults sent plus providers experiences].
  run. destruct (f (length s)) eqn:E; cbn; [|done..].
  split; [done|]. split; [done|].
  destruct (filter (λ row, ProviderService.id row = providerId) ps) as [|x [|y l]] eqn:F; cbn.
  - repeat split; try done.
  - assert (Hx : x ∈ ps ∧ ProviderService.id x = providerId).
    { assert (H : x ∈ filter (λ row, ProviderService.id row = providerId) ps)
        by (rewrite F; apply list_elem_of_here).
      by apply list_elem_of_filter in H as [? ?]. }
    destruct Hx as [Hx1 Hx2].
    split; [done|]. split; [done|]. split; [done|]. split.
    + intros Hno. rewrite Forall_forall in Hno. by destruct (Hno x Hx1).
    + intros row exps [= <- <-]. by rewrite Hx2.
  - repeat split; try done.
Qed.

Lemma filter_fresh_last {A} (Q : A → Prop) `{∀ x, Decision (Q x)} (l : list A) (x : A) :
  Forall (λ y, ¬ Q y) l → Q x → filter Q (l ++ [x]) = [x].
Proof.
  intros Hl Hx. rewrite filter_app, (filter_none Q l Hl).
  by rewrite filter_cons_True.
Qed.

Lemma getProviderDetails_unique (t : @Tables number) (key : nat)
    (row : ProviderService.ProviderRow) :
  outcome t 0 = Accept →
  filter (λ r, ProviderService.id r = key) (providers t) = [row] →
  (getProviderDetails key t).1 =
    Return (Succeeded (Some (row,
      filter (λ e, ProviderService.provider_id e = ProviderService.id row)
             (experiences t)))).
Proof.
  destruct t as [ps es f s]. unfold outcome. cbn [faults sent plus providers experiences].
  intros E F. run. rewrite E. cbn. rewrite F. done.
Qed.

(** X23: an application that was submitted in full can be read back.  When
    both inserts of submitProviderApplication are accepted and the key given
    to the new provider is fresh, getProviderDetails for that key returns the
    submitted provider row, pending, with exactly the submitted experience;
    after updateProviderStatus(key, 'approved') it returns the same row and
    experience with status approved. *)
Theorem submitted_application_reads_back (formData : ProviderService.FormData)
    (details : ProviderService.ExperienceDetails)
    (w : @ProviderService.World number) (plan : nat → Outcome) :
  ProviderService.experienceDetails formData = Some details →
  ProviderService.outcome w 0 = Accept → ProviderService.outcome w 1 = Accept →
  Forall (λ row, ProviderService.id row ≠ ProviderService.next_id w)
         (ProviderService.providers w) →
  Forall (λ e, ProviderService.provider_id e ≠ ProviderService.next_id w)
         (ProviderService.experiences w) →
  plan 0%nat = Accept → plan 1%nat = Accept →
  let key := ProviderService.next_id w in
  let row := ProviderService.providerRow formData w in
  let exp := ProviderService.experienceRow parseFloat row details in
  let t := tablesOf (ProviderService.submitProviderApplication parseFloat formData w).2 plan in
  ProviderService.provider_status row = "pending" ∧
  (getProviderDetails key t).1 = Return (Succeeded (Some (row, [exp]))) ∧
  (getProviderDetails key (updateProviderStatus key "approved" t).2).1 =
    Return (Succeeded (Some (withStatus "approved" row, [exp]))).
Proof.
  intros Hd E0 E1 Hps Hes P0 P1. cbn zeta.
  set (row := ProviderService.providerRow formData w).
  set (exp := ProviderService.experienceRow parseFloat row details).
  assert (S : ProviderService.providers
                (ProviderService.submitProviderApplication parseFloat formData w).2
              = ProviderService.providers w ++ [row] ∧
              ProviderService.experiences
                (ProviderService.submitProviderApplication parseFloat formData w).2
              = ProviderService.experiences w ++ [exp]).
  { subst exp row. destruct w as [ps es k f s ts n]. unfold ProviderService.outcome in *.
    cbn [ProviderService.faults ProviderService.sent plus] in *.
    unfold ProviderService.submitProviderApplication, ProviderService.insert_provider,
      ProviderService.insert_experience, ProviderService.toast, ProviderService.get.
    run. rewrite E0. cbn. rewrite Hd. cbn.
    rewrite length_app, Nat.add_1_r. cbn. rewrite E1. done. }
  unfold tablesOf. destruct S as [-> ->].
  assert (Hid : ProviderService.id row = ProviderService.next_id w) by done.
  assert (Hpid : ProviderService.provider_id exp = ProviderService.next_id w) by done.
  split; [done|]. split.
  - etrans; [apply (getProviderDetails_unique _ _ row)|].
    + exact P0.
    + by apply (filter_fresh_last (λ r, ProviderService.id r = ProviderService.next_id w)).
    + cbn [providers experiences]. rewrite Hid.
      by rewrite (filter_fresh_last _ _ exp Hes Hpid).
  - match goal with
    | |- (getProviderDetails _ ?u.2).1 = _ =>
      assert (U : ∃ ps', u.2 =
                {| providers := ps';
                   experiences := ProviderService.experiences w ++ [exp];
                   faults := plan;
                   sent := [UpdateStatus (ProviderService.next_id w) "approved"] |} ∧
                ps' = (λ r, if decide (ProviderService.id r = ProviderService.next_id w)
                            then withStatus "approved" r else r)
                        <$> (ProviderService.providers w ++ [row]))
    end.
    { unfold updateProviderStatus, request, try_catch, mbind, M_bind, bind,
        mret, M_ret, ret, throw. cbn. rewrite P0. cbn. by eexists. }
    destruct U as (ps' & -> & ->).
    etrans; [apply (getProviderDetails_unique _ _ (withStatus "approved" row))|].
    + exact P1.
    + cbn [providers]. rewrite fmap_app. cbn. rewrite decide_True by done.
      apply (filter_fresh_last (λ r, ProviderService.id r = ProviderService.next_id w));
        [|done].
      apply Forall_fmap. eapply Forall_impl; [exact Hps|].
      intros x Hx. cbn. by rewrite decide_False.
    + cbn [providers experiences].
      change (ProviderService.id (withStatus "approved" row))
        with (ProviderService.next_id w).
      by rewrite (filter_fresh_last _ _ exp Hes Hpid).
Qed.

End Facts.

Lemma submitted_application_reads_back_witness :
  let w := ProviderService.desk no_faults in
  let t := tablesOf
             (ProviderService.submitProviderApplication (λ _, 1200)
                ProviderService.application w).2 no_faults in
  ∃ row exp,
    (getProviderDetails 7 t).1 = Return (Succeeded (Some (row, [exp]))) ∧
    ProviderService.provider_status row = "pending".
Proof.
  destruct (submitted_application_reads_back (λ _, 1200) ProviderService.application
              ProviderService.studio (ProviderService.desk no_faults) no_faults)
    as (H1 & H2 & _); [reflexivity | reflexivity | reflexivity | constructor
                      | constructor | reflexivity | reflexivity |].
  do 2 eexists. split; [exact H2 | exact H1].
Defined.

End ProviderAdminFacts.

(** * Properties of the experience card *)

Module ExperienceCardFacts.
Import ExperienceCard.

Ltac run :=
  unfold checkWishlist, handleToggleWishlist, select_wishlist, setIsInWishlist,
    toast, get, try_catch, mbind, M_bind, bind, mret, M_ret, ret, throw;
  cbn.

(** X24: checkWishlist never throws, shows no toast and writes nothing.  For
    a guest it sends nothing and sets the flag to false.  For a user it sends
    one select; when that is accepted the flag is true exactly when the
    wishlist holds exactly one row for this user and experience (so also
    false when it holds two); when the select is refused the flag is false;
    when it throws the flag keeps its value. *)
Theorem checkWishlist_sets_flag (c : Card) :
  let c' := (checkWishlist c).2 in
  (checkWishlist c).1 = Return tt ∧
  wishlists c' = wishlists c ∧ toasts c' = toasts c ∧
  match user c with
  | None => isInWishlist c' = false ∧ sent c' = sent c
  | Some usr =>
    sent c' = sent c ++ [SelectWishlist (CartContext.user_id usr) (experience_id c)] ∧
    match outcome c 0 with
    | Accept =>
      isInWishlist c' = true ↔
      ∃ row, filter (λ r, wishlist_user_id r = CartContext.user_id usr ∧
                          wishlist_experience_id r = experience_id c)
                    (wishlists c) = [row]
    | Reject _ => isInWishlist c' = false
    | Throw _ => isInWishlist c' = isInWishlist c
    end
  end.
Proof.
  destruct c as [u eid flag rows f s ts]. unfold outcome.
  cbn [user experience_id isInWishlist wishlists faults sent toasts plus].
  run. destruct u as [usr|]; cbn; [|done].
  destruct (f (length s)) eqn:E; cbn; [|done..].
  repeat split; try done.
  - destruct (filter _ rows) as [|x [|y l]]; cbn; try done. eauto.
  - intros [row ->]. done.
Qed.

(** X25: a guest who clicks the wishlist button gets the toast 'Please log
    in to save to your wishlist' and nothing else: the hook is not called,
    whatever it would do, no request is sent and the flag keeps its value. *)
Theorem handleToggleWishlist_guest
    (toggleWishlist : string → bool → M Card unit → M Card unit) (c : Card) :
  user c = None →
  let c' := (handleToggleWishlist toggleWishlist c).2 in
  (handleToggleWishlist toggleWishlist c).1 = Return tt ∧
  toasts c' = toasts c ++ [toast_error "Please log in to save to your wishlist"] ∧
  isInWishlist c' = isInWishlist c ∧ sent c' = sent c ∧ wishlists c' = wishlists c.
Proof.
  destruct c as [u eid flag rows f s ts]. cbn [user]. intros ->. run. done.
Qed.

Lemma handleToggleWishlist_guest_witness :
  let c := card None [] no_faults in
  toasts (handleToggleWishlist (λ _ _ done, done;; done) c).2 =
    [toast_error "Please log in to save to your wishlist"] ∧
  isInWishlist (handleToggleWishlist (λ _ _ done, done;; done) c).2 = false.
Proof.
  destruct (handleToggleWishlist_guest (λ _ _ done, done;; done) (card None [] no_faults))
    as (_ & H1 & H2 & _); [reflexivity|].
  split; [exact H1 | exact H2].
Defined.

End ExperienceCardFacts.

(** * Properties of the migration *)

Module MigrationFacts.
Import Migration.

Lemma dated_rows_pass (now : string) (l : list CartContext.CartRow) :
  forallb (λ r, bool_decide (is_Some (CartContext.row_date r)))
          (withDate (Some now) <$> l) = true.
Proof. induction l as [|r l IH]; [done|]. rewrite fmap_cons. cbn. exact IH. Qed.

(** X26: on a table that has no date column the migration runs through: the
    SET NOT NULL step cannot fail, every existing row ends up with the date
    NOW() and is otherwise unchanged, and the column is NOT NULL.  Run a
    second time it fails at its first statement.  Afterwards an insert
    without a date is refused and an insert with a date is appended. *)
Theorem migration_backfills_every_row (now : string) (t : Table) :
  date_column t = Absent →
  ∃ t', migrate now t = Some t' ∧
    date_column t' = NotNull ∧
    rows t' = withDate (Some now) <$> rows t ∧
    migrate now t' = None ∧
    (∀ r, CartContext.row_date r = None → insert r t' = None) ∧
    (∀ r d, CartContext.row_date r = Some d →
       insert r t' = Some {| rows := rows t' ++ [r]; date_column := NotNull |}).
Proof.
  destruct t as [l col]. cbn [date_column rows]. intros ->.
  unfold migrate, add_column, backfill, set_not_null. cbn.
  assert (R : (λ r, match CartContext.row_date r with
                    | None => withDate (Some now) r
                    | Some _ => r
                    end) <$> (withDate None <$> l) = withDate (Some now) <$> l).
  { rewrite <- list_fmap_compose. by apply list_fmap_ext. }
  rewrite R, dated_rows_pass. eexists. split; [reflexivity|]. cbn.
  repeat split.
  - intros r Hr. unfold insert. cbn. by rewrite Hr.
  - intros r d Hr. unfold insert. cbn. by rewrite Hr.
Qed.

Lemma migration_backfills_every_row_witness :
  ∃ t', migrate "2024-03-19T00:00:00.000Z" legacy = Some t' ∧
        date_column t' = NotNull ∧
        CartContext.row_date <$> rows t' = [Some "2024-03-19T00:00:00.000Z"].
Proof.
  destruct (migration_backfills_every_row "2024-03-19T00:00:00.000Z" legacy)
    as (t' & H1 & H2 & H3 & _); [reflexivity|].
  exists t'. split; [exact H1|]. split; [exact H2|]. by rewrite H3.
Defined.

End MigrationFacts.
